(** * flask_saml2: the signature-verifying XML parser and its utilities

    A shallow embedding of [flask_saml2/xml_parser.py] and of the parts of
    [flask_saml2/utils.py] that the specification speaks about
    ([cached_property], [certificate_to_string], [certificate_from_string]).

    Python objects are records, attribute dictionaries are [gmap]s, raised
    exceptions are the [Raises] branch of [Py.Result], and effects (calls into
    the imported libraries, log records, updates of [obj.__dict__]) are
    threaded through small state-and-exception monads.  The libraries the
    module imports (defusedxml, lxml, signxml, cryptography) are not part of
    the repository; they enter as the fields of an environment record. *)

From Stdlib Require Import String Ascii List ZArith NArith Lia Bool.
From stdpp Require Import base gmap strings list.

Set Warnings "-register-all".

Local Open Scope string_scope.
Local Open Scope list_scope.

(** [lia] also decides goals with division and remainder by constants. *)
Ltac Zify.zify_post_hook ::= Z.to_euclidean_division_equations.

(** Turn the boolean range tests in the context into arithmetic facts. *)
Ltac ranges :=
  repeat match goal with
    | H : (_ && _)%bool = true |- _ => apply andb_true_iff in H; destruct H
    | H : negb _ = true |- _ => apply negb_true_iff in H
    | H : (_ <? _)%N = true |- _ => apply N.ltb_lt in H
    | H : (_ <? _)%N = false |- _ => apply N.ltb_ge in H
    | H : (_ <=? _)%N = true |- _ => apply N.leb_le in H
    | H : (_ <=? _)%N = false |- _ => apply N.leb_gt in H
    end.

(** Decide every comparison in the goal, discarding the impossible sides. *)
Ltac compare_all :=
  repeat match goal with
    | |- context [(?a <? ?b)%N] => destruct (N.ltb_spec a b); try lia
    | |- context [(?a <=? ?b)%N] => destruct (N.leb_spec a b); try lia
    end.

(** ** Python values shared by both modules *)

Module Py.

(** The exception classes the code raises, catches or lets through.
    [LxmlError] stands for [lxml.etree.Error] and every subclass of it
    ([XMLSyntaxError], ...); [Foreign] is an exception of any other class
    defined by an imported library (defusedxml's [EntitiesForbidden],
    signxml's [InvalidSignature], ...), given by class name and text. *)
Inductive Exc : Type :=
| ValueError (msg : string)
| NotImplementedError
| AttributeError (msg : string)
| UnicodeDecodeError
| UnicodeEncodeError
| LxmlError (detail : string)
| Foreign (cls : string) (detail : string).

Inductive Result (A : Type) : Type :=
| Returns (a : A)
| Raises (e : Exc).
Arguments Returns {A} a.
Arguments Raises {A} e.

(** [isinstance(e, lxml.etree.Error)] *)
Definition is_lxml_etree_Error (e : Exc) : bool :=
  match e with LxmlError _ => true | _ => false end.

(** [a or b] on an optional string: [None] and the empty string are falsy. *)
Definition or_str (a : option string) (b : string) : string :=
  match a with
  | Some "" => b
  | Some s => s
  | None => b
  end.

(** [a or b] where [b] itself may be [None] (a docstring). *)
Definition or_opt (a b : option string) : option string :=
  match a with
  | Some "" => b
  | Some s => Some s
  | None => b
  end.

End Py.

Import Py.

(** ** types.py: [XmlNode = ElementBase] *)

(** An lxml element as an ownership-rooted tree: tag, attributes in document
    order, text, children. *)
Inductive XmlNode : Type :=
| Element (tag : string) (attrib : list (string * string)) (text : string)
          (children : list XmlNode).

Definition text_of (n : XmlNode) : string :=
  match n with Element _ _ t _ => t end.

Definition tag_of (n : XmlNode) : string :=
  match n with Element t _ _ _ => t end.

Definition attrib_of (n : XmlNode) : list (string * string) :=
  match n with Element _ a _ _ => a end.

Definition children_of (n : XmlNode) : list XmlNode :=
  match n with Element _ _ _ cs => cs end.

(** [element.get(key)] *)
Fixpoint attrib_get (a : list (string * string)) (key : string) : option string :=
  match a with
  | [] => None
  | (k, v) :: rest => if String.eqb k key then Some v else attrib_get rest key
  end.

(** [element.iter()]: the element and all its descendants, in document order. *)
Fixpoint iter (n : XmlNode) : list XmlNode :=
  match n with
  | Element _ _ _ cs => n :: flat_map iter cs
  end.

(** A prefix-to-URI namespace table, the dict passed to
    [xpath(namespaces=...)]. *)
Definition NamespaceMap : Type := gmap string string.

(** ** xml_parser.py *)

Module xml_parser.

(** [signxml.VerifyResult]: what [XMLVerifier().verify] returns on success. *)
Record VerifyResult : Type := {
  signed_data : string;
  signed_xml : XmlNode;
  signature_xml : XmlNode
}.

(** An [XmlParser] instance.  [dict_certificate] is the entry of the instance
    [__dict__]; it exists only when [__init__] was given a certificate. *)
Record XmlParser (Certificate : Type) : Type := {
  _logger : string;
  dict_certificate : option Certificate;
  xml_string : string;
  xml_tree : XmlNode
}.
Arguments _logger {Certificate} _.
Arguments dict_certificate {Certificate} _.
Arguments xml_string {Certificate} _.
Arguments xml_tree {Certificate} _.

(** What the module imports and what a subclass supplies.
    - [fromstring] is [defusedxml.lxml.fromstring], called with its defaults;
    - [XMLVerifier_verify data x509_cert] is [XMLVerifier().verify(data,
      x509_cert=x509_cert)];
    - [xpath base statement namespaces] is [base.xpath(statement,
      namespaces=namespaces)];
    - [NAMESPACE_MAP] is the constant of [flask_saml2.xml_templates];
    - [is_signed] is the method every subclass must implement. *)
Class Env : Type := {
  Certificate : Type;
  XPathValue : Type;
  fromstring : string -> Result XmlNode;
  XMLVerifier_verify : XmlNode -> option Certificate -> Result VerifyResult;
  xpath : XmlNode -> string -> NamespaceMap -> Result XPathValue;
  NAMESPACE_MAP : NamespaceMap;
  is_signed : XmlParser Certificate -> Result bool
}.

(** The base class leaves [is_signed] abstract. *)
Definition XmlParser_is_signed {Certificate : Type} (self : XmlParser Certificate) : Result bool :=
  Raises NotImplementedError.

Section Parser.
Context `{E : Env}.

(** Calls into the imported libraries and log records, in program order. *)
Inductive Event : Type :=
| CallFromstring (text : string)
| LogException (logger : string) (message : string) (exc_info : Exc)
| CallVerify (data : XmlNode) (x509_cert : option Certificate)
| CallXPath (base : XmlNode) (statement : string) (namespaces : NamespaceMap).

(** A computation appends to the event history and returns or raises. *)
Definition M (A : Type) : Type := list Event -> Result A * list Event.

Definition ret {A} (a : A) : M A := fun h => (Returns a, h).

Definition raise {A} (e : Exc) : M A := fun h => (Raises e, h).

Definition bind {A B} (m : M A) (k : A -> M B) : M B :=
  fun h => match m h with
           | (Returns a, h') => k a h'
           | (Raises e, h') => (Raises e, h')
           end.

(** [try: m  except <cls>: handler], where [catches] decides [isinstance]. *)
Definition try_except {A} (m : M A) (catches : Exc -> bool) (handler : Exc -> M A) : M A :=
  fun h => match m h with
           | (Returns a, h') => (Returns a, h')
           | (Raises e, h') => if catches e then handler e h' else (Raises e, h')
           end.

(** A method whose own calls are not part of the history: [is_signed], which
    the subclass writes. *)
Definition lift {A} (r : Result A) : M A := fun h => (r, h).

(** Record the call, then behave as the library function did. *)
Definition call {A} (ev : Event) (r : Result A) : M A :=
  fun h => (r, h ++ [ev]).

(** [logger.exception(message)] inside an [except] block handling [exc]. *)
Definition logger_exception (logger message : string) (exc : Exc) : M unit :=
  fun h => (Returns tt, h ++ [LogException logger message exc]).

Notation "'LET' x <~ m 'IN' k" := (bind m (fun x => k))
  (at level 10, x name, m at level 100, k at level 200).

(** [__name__] of the module, the name of its logger. *)
Definition module_name : string := "flask_saml2.xml_parser".

(** The class attribute [certificate = None]. *)
Definition XmlParser_certificate : option Certificate := None.

(** [self.certificate]: the instance entry when present, else the class
    attribute. *)
Definition certificate (self : XmlParser Certificate) : option Certificate :=
  match dict_certificate self with
  | Some c => Some c
  | None => XmlParser_certificate
  end.

Definition parse_request (logger : string) (xml_string : string) : M XmlNode :=
  try_except
    (call (CallFromstring xml_string) (fromstring xml_string))
    is_lxml_etree_Error
    (fun exc =>
       let message := "Could not parse request XML" in
       LET _ <~ logger_exception logger message exc IN
       raise (ValueError message)).

Definition parse_signed (xml_tree : XmlNode) (certificate : option Certificate) : M XmlNode :=
  LET r <~ call (CallVerify xml_tree certificate) (XMLVerifier_verify xml_tree certificate) IN
  ret (signed_xml r).

Definition get_namespace_map (self : XmlParser Certificate) : NamespaceMap :=
  NAMESPACE_MAP.

Definition _xpath (self : XmlParser Certificate) (base : XmlNode) (xpath_statement : string)
  : M XPathValue :=
  let namespaces := get_namespace_map self in
  call (CallXPath base xpath_statement namespaces) (xpath base xpath_statement namespaces).

Definition _xpath_xml_tree (self : XmlParser Certificate) (xpath_statement : string)
  : M XPathValue :=
  _xpath self (xml_tree self) xpath_statement.

(** [self.xml_tree = value] *)
Definition set_xml_tree (self : XmlParser Certificate) (value : XmlNode) : XmlParser Certificate :=
  {| _logger := _logger self;
     dict_certificate := dict_certificate self;
     xml_string := xml_string self;
     xml_tree := value |}.

(** [XmlParser(xml_string, certificate)].  The attributes are assigned in the
    order of the source; [parse_request] only reads [self._logger], so the
    record is built once the first tree exists. *)
Definition __init__ (xml_string : string) (certificate_arg : option Certificate)
  : M (XmlParser Certificate) :=
  let logger := module_name in
  let dict_cert := match certificate_arg with
                   | Some c => Some c
                   | None => None
                   end in
  LET tree <~ parse_request logger xml_string IN
  let self := {| _logger := logger;
                 dict_certificate := dict_cert;
                 xml_string := xml_string;
                 xml_tree := tree |} in
  LET signed <~ lift (is_signed self) IN
  if (signed : bool)
  then LET tree' <~ parse_signed (xml_tree self) (certificate self) IN
       ret (set_xml_tree self tree')
  else ret self.

(** The instance [__init__] has built when it calls [is_signed]. *)
Definition parsed_instance (xml_string : string) (certificate_arg : option Certificate)
  (tree : XmlNode) : XmlParser Certificate :=
  {| _logger := module_name;
     dict_certificate := certificate_arg;
     xml_string := xml_string;
     xml_tree := tree |}.

(** Two runs end alike: both return, with equal trees, or both raise the
    same exception. *)
Definition same_outcome (a b : Result (XmlParser Certificate)) : Prop :=
  match a, b with
  | Returns x, Returns y => xml_tree x = xml_tree y
  | Raises e, Raises e' => e = e'
  | _, _ => False
  end.

(** Is the event a call of the cryptographic verifier? *)
Definition is_CallVerify (ev : Event) : bool :=
  match ev with CallVerify _ _ => true | _ => false end.

(** Does the event use [namespaces] if it is an XPath evaluation? *)
Definition uses_namespaces (namespaces : NamespaceMap) (ev : Event) : Prop :=
  match ev with
  | CallXPath _ _ ns => ns = namespaces
  | _ => True
  end.

(** Is the event a log record? *)
Definition is_LogException (ev : Event) : bool :=
  match ev with LogException _ _ _ => true | _ => false end.

(** Several queries in a row on one instance; stops at the first one that
    raises. *)
Fixpoint query_all (self : XmlParser Certificate) (statements : list string)
  : M (list XPathValue) :=
  match statements with
  | [] => ret []
  | q :: qs =>
      LET v <~ _xpath_xml_tree self q IN
      LET vs <~ query_all self qs IN
      ret (v :: vs)
  end.

End Parser.

End xml_parser.

(** ** utils.py *)

Module utils.

(** *** [cached_property] *)

Section CachedProperty.
Context {Value : Type}.

(** A Python function of one argument [obj].  Its body may read and update
    [obj.__dict__] and returns a value or raises. *)
Record PyFunction : Type := {
  fn_name : string;
  fn_module : string;
  fn_doc : option string;
  fn_call : gmap string Value -> Result Value * gmap string Value
}.

(** A [cached_property] instance: the four attributes [__init__] assigns.
    [property.__init__] is not called, so nothing else is set. *)
Record cached_property : Type := {
  __name__ : string;
  __module__ : string;
  __doc__ : option string;
  func : PyFunction
}.

Definition __init__ (func : PyFunction) (name : option string) (doc : option string)
  : cached_property :=
  {| __name__ := or_str name (fn_name func);
     __module__ := fn_module func;
     __doc__ := or_opt doc (fn_doc func);
     func := func |}.

(** An object whose class carries the property: the name of its class, its
    [__dict__], and a ghost counter of the calls of [self.func(obj)] made on
    it so far. *)
Record Object : Type := {
  class_name : string;
  __dict__ : gmap string Value;
  func_calls : nat
}.

(** What [__get__] returns: the descriptor itself, or the attribute value. *)
Inductive Got : Type :=
| GotDescriptor (self : cached_property)
| GotValue (value : Value).

(** [__get__(self, obj, type=None)].  The sentinel [_missing] is a fresh
    object, so [value is _missing] holds exactly when the key is absent. *)
Definition __get__ (self : cached_property) (obj : option Object)
  : Result Got * option Object :=
  match obj with
  | None => (Returns (GotDescriptor self), None)
  | Some o =>
      match __dict__ o !! __name__ self with
      | Some value => (Returns (GotValue value), Some o)
      | None =>
          match fn_call (func self) (__dict__ o) with
          | (Returns value, d) =>
              (Returns (GotValue value),
               Some {| class_name := class_name o;
                       __dict__ := <[__name__ self := value]> d;
                       func_calls := S (func_calls o) |})
          | (Raises e, d) =>
              (Raises e,
               Some {| class_name := class_name o;
                       __dict__ := d;
                       func_calls := S (func_calls o) |})
          end
      end
  end.

(** The attribute lookup [self.name] inside the two f-strings.  A
    [cached_property] instance has the attributes [__name__], [__module__],
    [__doc__] and [func]; neither it nor [property] defines [name], so the
    lookup raises [AttributeError] before the f-string is built. *)
Definition self_name (self : cached_property) : Result string :=
  Raises (AttributeError "'cached_property' object has no attribute 'name'").

(** [__set__(self, instance, value)] *)
Definition __set__ (self : cached_property) (instance : Object) (value : Value)
  : Result unit * Object :=
  match self_name self with
  | Returns n =>
      (Raises (AttributeError
         ("Can not set read-only attribute " ++ class_name instance ++ "." ++ n)%string),
       instance)
  | Raises e => (Raises e, instance)
  end.

(** [__delete__(self, instance)] *)
Definition __delete__ (self : cached_property) (instance : Object)
  : Result unit * Object :=
  match self_name self with
  | Returns n =>
      (Raises (AttributeError
         ("Can not delete read-only attribute " ++ class_name instance ++ "." ++ n)%string),
       instance)
  | Raises e => (Raises e, instance)
  end.

(** The three statements that reach a data descriptor: [obj.attr],
    [obj.attr = v] and [del obj.attr]. *)
Inductive Access : Type :=
| Load
| Store (v : Value)
| Del.

(** The outcome of one statement: the value read, or nothing. *)
Definition access (self : cached_property) (a : Access) (o : Object)
  : Result (option Value) * Object :=
  match a with
  | Load =>
      match __get__ self (Some o) with
      | (Returns (GotValue v), Some o') => (Returns (Some v), o')
      | (Returns (GotDescriptor _), _) => (Returns None, o)
      | (Returns (GotValue v), None) => (Returns (Some v), o)
      | (Raises e, Some o') => (Raises e, o')
      | (Raises e, None) => (Raises e, o)
      end
  | Store v =>
      match __set__ self o v with
      | (Returns _, o') => (Returns None, o')
      | (Raises e, o') => (Raises e, o')
      end
  | Del =>
      match __delete__ self o with
      | (Returns _, o') => (Returns None, o')
      | (Raises e, o') => (Raises e, o')
      end
  end.

(** A program of such statements, each wrapped in [try/except] by the
    caller: all outcomes are collected and the object is threaded through. *)
Fixpoint accesses (self : cached_property) (prog : list Access) (o : Object)
  : list (Result (option Value)) * Object :=
  match prog with
  | [] => ([], o)
  | a :: rest =>
      let '(r, o') := access self a o in
      let '(rs, o'') := accesses self rest o' in
      (r :: rs, o'')
  end.

(** The outcome the claim expects of a statement once [v] is cached. *)
Definition cached_outcome (v : Value) (a : Access) (r : Result (option Value)) : Prop :=
  match a with
  | Load => r = Returns (Some v)
  | Store _ | Del => exists msg, r = Raises (AttributeError msg)
  end.

End CachedProperty.

Arguments PyFunction : clear implicits.
Arguments cached_property : clear implicits.
Arguments Object : clear implicits.
Arguments Got : clear implicits.
Arguments Access : clear implicits.

(** *** The UTF-8 codec behind [bytes.decode('utf-8')] and [str.encode('utf-8')]

    A [bytes] object is a list of octets and a [str] a list of code points,
    both as [N]. Errors are [strict], Python's default. *)

Definition is_continuation (b : N) : bool :=
  ((0x80 <=? b) && (b <? 0xC0))%N.

Definition is_surrogate (c : N) : bool :=
  ((0xD800 <=? c) && (c <? 0xE000))%N.

Definition encode_code_point (c : N) : option (list N) :=
  (if c <? 0x80 then Some [c]
   else if c <? 0x800 then Some [0xC0 + c / 64; 0x80 + c mod 64]
   else if c <? 0x10000 then
     if is_surrogate c then None
     else Some [0xE0 + c / 4096; 0x80 + (c / 64) mod 64; 0x80 + c mod 64]
   else if c <? 0x110000 then
     Some [0xF0 + c / 262144; 0x80 + (c / 4096) mod 64;
           0x80 + (c / 64) mod 64; 0x80 + c mod 64]
   else None)%N.

(** [s.encode('utf-8')] *)
Fixpoint encode (s : list N) : Result (list N) :=
  match s with
  | [] => Returns []
  | c :: rest =>
      match encode_code_point c with
      | None => Raises UnicodeEncodeError
      | Some octets =>
          match encode rest with
          | Returns out => Returns (octets ++ out)
          | Raises e => Raises e
          end
      end
  end.

Definition prepend (c : N) (r : Result (list N)) : Result (list N) :=
  match r with
  | Returns s => Returns (c :: s)
  | Raises e => Raises e
  end.

(** [b.decode('utf-8')]: shortest-form sequences only, no surrogates, nothing
    above U+10FFFF. *)
Fixpoint decode (b : list N) : Result (list N) :=
  match b with
  | [] => Returns []
  | b0 :: r0 =>
      if (b0 <? 0x80)%N then prepend b0 (decode r0)
      else if ((0xC2 <=? b0) && (b0 <? 0xE0))%N then
        match r0 with
        | b1 :: r1 =>
            if is_continuation b1
            then prepend ((b0 - 0xC0) * 64 + (b1 - 0x80))%N (decode r1)
            else Raises UnicodeDecodeError
        | _ => Raises UnicodeDecodeError
        end
      else if ((0xE0 <=? b0) && (b0 <? 0xF0))%N then
        match r0 with
        | b1 :: b2 :: r2 =>
            let c := ((b0 - 0xE0) * 4096 + (b1 - 0x80) * 64 + (b2 - 0x80))%N in
            if is_continuation b1 && is_continuation b2
               && (0x800 <=? c)%N && negb (is_surrogate c)
            then prepend c (decode r2)
            else Raises UnicodeDecodeError
        | _ => Raises UnicodeDecodeError
        end
      else if ((0xF0 <=? b0) && (b0 <? 0xF5))%N then
        match r0 with
        | b1 :: b2 :: b3 :: r3 =>
            let c := ((b0 - 0xF0) * 262144 + (b1 - 0x80) * 4096
                      + (b2 - 0x80) * 64 + (b3 - 0x80))%N in
            if is_continuation b1 && is_continuation b2 && is_continuation b3
               && (0x10000 <=? c)%N && (c <? 0x110000)%N
            then prepend c (decode r3)
            else Raises UnicodeDecodeError
        | _ => Raises UnicodeDecodeError
        end
      else Raises UnicodeDecodeError
  end.

(** Every octet is below 128. *)
Definition is_ascii (b : list N) : bool :=
  forallb (fun x => (x <? 0x80)%N) b.

(** *** Certificates *)

(** The two functions of the [cryptography] package the module calls:
    [certificate.public_bytes(encoding=Encoding.PEM)] and
    [x509.load_pem_x509_certificate(data, default_backend())]. *)
Class X509 : Type := {
  Certificate : Type;
  public_bytes_PEM : Certificate -> list N;
  load_pem_x509_certificate : list N -> Result Certificate
}.

Section Certificates.
Context `{X : X509}.

Definition certificate_to_string (certificate : Certificate) : Result (list N) :=
  let pem_bytes := public_bytes_PEM certificate in
  decode pem_bytes.

(** The [format] argument is accepted and not used. *)
Definition certificate_from_string (certificate : list N) : Result Certificate :=
  match encode certificate with
  | Returns data => load_pem_x509_certificate data
  | Raises e => Raises e
  end.

End Certificates.

(** *** More on [cached_property]: programs that only assign and delete *)

Section CachedPropertyPrograms.
Context {Value : Type}.

Definition is_write (a : Access Value) : bool :=
  match a with
  | Load => false
  | Store _ | Del => true
  end.

(** The statement raised [AttributeError]. *)
Definition raised_AttributeError (r : Result (option Value)) : Prop :=
  exists msg, r = Raises (AttributeError msg).

End CachedPropertyPrograms.

(** *** [import_string] *)

(** [s.rsplit(sep, 1)] for a one-character separator.  [Some (a, b)] is the
    two-element list [[a, b]], cut at the last occurrence of [sep]; [None] is
    the one-element list [[s]] Python returns when [sep] does not occur. *)
Fixpoint rsplit1 (sep : ascii) (s : string) : option (string * string) :=
  match s with
  | EmptyString => None
  | String c rest =>
      match rsplit1 sep rest with
      | Some (a, b) => Some (String c a, b)
      | None => if Ascii.eqb c sep then Some (EmptyString, rest) else None
      end
  end.

(** Does the character occur in the string? *)
Fixpoint occurs (sep : ascii) (s : string) : bool :=
  match s with
  | EmptyString => false
  | String c rest => Ascii.eqb c sep || occurs sep rest
  end.

(** [importlib.import_module] and the builtin [getattr] on a module. *)
Class Importer : Type := {
  PyModule : Type;
  PyObject : Type;
  import_module : string -> Result PyModule;
  getattr : PyModule -> string -> Result PyObject
}.

Section ImportString.
Context `{I : Importer}.

(** The tuple assignment [name, attr = ...] raises [ValueError] when the
    list has one element only. *)
Definition import_string (path : string) : Result PyObject :=
  match rsplit1 "." path with
  | None => Raises (ValueError "not enough values to unpack (expected 2, got 1)")
  | Some (name, attr) =>
      match import_module name with
      | Returns module => getattr module attr
      | Raises e => Raises e
      end
  end.

End ImportString.

(** *** [get_random_id] *)

(** [uuid4_hex] is the value of [uuid.uuid4().hex] drawn by the call. *)
Definition get_random_id (uuid4_hex : string) : string :=
  let random_id := ("_" ++ uuid4_hex)%string in
  random_id.

(** [c.isdigit()] for an ASCII character. *)
Definition is_digit (c : ascii) : bool :=
  let n := Ascii.nat_of_ascii c in (48 <=? n)%nat && (n <=? 57)%nat.

(** The first character of a string, if any. *)
Definition first_char (s : string) : option ascii :=
  match s with
  | EmptyString => None
  | String c _ => Some c
  end.

(** *** Certificates and private keys from strings and files *)

(** The members of [serialization.Encoding]. *)
Inductive Encoding : Type :=
| PEM
| DER
| OpenSSH
| Raw
| X962
| SMIME.

(** [with open(filename, 'rb') as handle: handle.read()]: the content of the
    file, or the exception [open] or [read] raised. *)
Class FileSystem : Type := {
  read_binary : string -> Result (list N)
}.

(** [serialization.load_pem_private_key(data, password=None,
    backend=default_backend())] and the three [isinstance] tests. *)
Class PrivateKeys : Type := {
  PrivateKey : Type;
  load_pem_private_key : list N -> Result PrivateKey;
  is_RSAPrivateKey : PrivateKey -> bool;
  is_DSAPrivateKey : PrivateKey -> bool;
  is_DHPrivateKey : PrivateKey -> bool
}.

Section Files.
Context `{X : X509} `{F : FileSystem} `{K : PrivateKeys}.

(** [format] is handed on to [certificate_from_string], which does not use
    it. *)
Definition certificate_from_file (filename : string) (format : Encoding)
  : Result Certificate :=
  match read_binary filename with
  | Returns content =>
      match decode content with
      | Returns text => certificate_from_string text
      | Raises e => Raises e
      end
  | Raises e => Raises e
  end.

Definition private_key_from_string (private_key : list N) (format : Encoding)
  : Result PrivateKey :=
  match encode private_key with
  | Returns data =>
      match load_pem_private_key data with
      | Returns key =>
          if is_RSAPrivateKey key then Returns key
          else if is_DSAPrivateKey key then Returns key
          else if is_DHPrivateKey key then Returns key
          else Raises (ValueError "Unsupported private key type")
      | Raises e => Raises e
      end
  | Raises e => Raises e
  end.

Definition private_key_from_file (filename : string) (format : Encoding)
  : Result PrivateKey :=
  match read_binary filename with
  | Returns content =>
      match decode content with
      | Returns text => private_key_from_string text format
      | Raises e => Raises e
      end
  | Raises e => Raises e
  end.

(** The key is of one of the three kinds the function lets through. *)
Definition supported_key (key : PrivateKey) : bool :=
  is_RSAPrivateKey key || is_DSAPrivateKey key || is_DHPrivateKey key.

(** What the function does with the outcome of the loader. *)
Definition checked_key (loaded : Result PrivateKey) : Result PrivateKey :=
  match loaded with
  | Returns key =>
      if supported_key key then Returns key
      else Raises (ValueError "Unsupported private key type")
  | Raises e => Raises e
  end.

End Files.

End utils.

(** ** Test doubles

    Small executable stand-ins for the imported libraries, used to run the
    parser on concrete documents. *)

Module double.

Import xml_parser.

Definition doc_unsigned : string :=
  "<Response><Assertion ID='a1'>alice</Assertion></Response>".

Definition tree_unsigned : XmlNode :=
  Element "Response" [] "" [Element "Assertion" [("ID", "a1")] "alice" []].

(** A response whose signature covers the first assertion only; a second,
    unsigned assertion was appended next to it. *)
Definition doc_wrapped : string :=
  "<Response><Assertion ID='a1'>alice</Assertion><Assertion ID='a2'>mallory</Assertion><ds:Signature key='k7' ref='a1' digest='alice'/></Response>".

Definition assertion_alice : XmlNode :=
  Element "Assertion" [("ID", "a1")] "alice" [].

Definition assertion_mallory : XmlNode :=
  Element "Assertion" [("ID", "a2")] "mallory" [].

Definition signature_alice : XmlNode :=
  Element "ds:Signature" [("key", "k7"); ("ref", "a1"); ("digest", "alice")] "" [].

Definition tree_wrapped : XmlNode :=
  Element "Response" [] "" [assertion_alice; assertion_mallory; signature_alice].

(** The digest recorded in the signature does not match the content. *)
Definition doc_tampered : string :=
  "<Response><Assertion ID='a1'>mallory</Assertion><ds:Signature key='k7' ref='a1' digest='alice'/></Response>".

Definition tree_tampered : XmlNode :=
  Element "Response" [] ""
    [Element "Assertion" [("ID", "a1")] "mallory" []; signature_alice].

Definition doc_malformed : string := "<Response><Assertion>".

Definition double_fromstring (text : string) : Result XmlNode :=
  if String.eqb text doc_unsigned then Returns tree_unsigned
  else if String.eqb text doc_wrapped then Returns tree_wrapped
  else if String.eqb text doc_tampered then Returns tree_tampered
  else if String.eqb text doc_malformed
       then Raises (LxmlError "Premature end of data in tag Assertion line 1")
  else Raises (LxmlError "Start tag expected, '<' not found").

Definition has_tag (t : string) (n : XmlNode) : bool := String.eqb (tag_of n) t.

Definition has_id (i : string) (n : XmlNode) : bool :=
  match attrib_get (attrib_of n) "ID" with
  | Some j => String.eqb i j
  | None => false
  end.

(** Accepts a signature when the key it names is the trusted one (or, with
    no trusted key, whatever key the document names) and the digest equals
    the text of the referenced child; returns that child. *)
Definition double_verify (data : XmlNode) (x509_cert : option string) : Result VerifyResult :=
  match List.find (has_tag "ds:Signature") (children_of data) with
  | None => Raises (Foreign "signxml.exceptions.InvalidInput" "no Signature element")
  | Some sig =>
      match attrib_get (attrib_of sig) "key", attrib_get (attrib_of sig) "ref",
            attrib_get (attrib_of sig) "digest" with
      | Some key, Some ref, Some digest =>
          let trusted := match x509_cert with Some k => k | None => key end in
          if negb (String.eqb trusted key)
          then Raises (Foreign "signxml.exceptions.InvalidSignature" "key mismatch")
          else match List.find (has_id ref) (children_of data) with
               | None => Raises (Foreign "signxml.exceptions.InvalidInput" "dangling reference")
               | Some target =>
                   if String.eqb (text_of target) digest
                   then Returns {| signed_data := text_of target;
                                   signed_xml := target;
                                   signature_xml := sig |}
                   else Raises (Foreign "signxml.exceptions.InvalidDigest" "digest mismatch")
               end
      | _, _, _ => Raises (Foreign "signxml.exceptions.InvalidInput" "incomplete Signature")
      end
  end.

(** All elements of the subtree with the given tag. *)
Definition double_xpath (base : XmlNode) (statement : string) (namespaces : NamespaceMap)
  : Result (list XmlNode) :=
  Returns (List.filter (has_tag statement) (iter base)).

(** The signature is expected as a direct child of the root. *)
Definition double_is_signed (self : XmlParser string) : Result bool :=
  Returns (existsb (has_tag "ds:Signature") (children_of (xml_tree self))).

Definition env : Env :=
  {| Certificate := string;
     XPathValue := list XmlNode;
     fromstring := double_fromstring;
     XMLVerifier_verify := double_verify;
     xpath := double_xpath;
     NAMESPACE_MAP := {[ "ds" := "http://www.w3.org/2000/09/xmldsig#" ]};
     is_signed := double_is_signed |}.

(** A property function that returns 42 and leaves the object alone. *)
Definition answer : utils.PyFunction nat :=
  {| utils.fn_name := "answer";
     utils.fn_module := "demo";
     utils.fn_doc := None;
     utils.fn_call := fun d => (Returns 42, d) |}.

(** A property function that always raises. *)
Definition broken : utils.PyFunction nat :=
  {| utils.fn_name := "broken";
     utils.fn_module := "demo";
     utils.fn_doc := None;
     utils.fn_call := fun d => (Raises (ValueError "boom"), d) |}.

Definition fresh_object : utils.Object nat :=
  {| utils.class_name := "Foo"; utils.__dict__ := ∅; utils.func_calls := 0 |}.

(** Certificates are numbers; the armour is two dashes, the number in unary
    as a run of [A], and two dashes. *)
Fixpoint count_A (b : list N) : option N :=
  match b with
  | [45; 45]%N => Some 0%N
  | 65%N :: rest => option_map N.succ (count_A rest)
  | _ => None
  end.

Definition double_load_pem (data : list N) : Result N :=
  match data with
  | 45%N :: 45%N :: rest =>
      match count_A rest with
      | Some n => Returns n
      | None => Raises (ValueError "Unable to load PEM file")
      end
  | _ => Raises (ValueError "Unable to load PEM file")
  end.

Definition double_public_bytes (c : N) : list N :=
  [45; 45]%N ++ repeat 65%N (N.to_nat c) ++ [45; 45]%N.

Definition x509 : utils.X509 :=
  {| utils.Certificate := N;
     utils.public_bytes_PEM := double_public_bytes;
     utils.load_pem_x509_certificate := double_load_pem |}.

(** A document with an entity declaration, which defusedxml refuses. *)
Definition doc_entity : string :=
  "<!DOCTYPE r [<!ENTITY x SYSTEM 'file:///etc/passwd'>]><r>&x;</r>".

Definition refusing_fromstring (text : string) : Result XmlNode :=
  if String.eqb text doc_entity
  then Raises (Foreign "defusedxml.EntitiesForbidden" "EntitiesForbidden(name='x')")
  else double_fromstring text.

(** The parser class itself, with no subclass: [is_signed] is abstract. *)
Definition base_env : Env :=
  {| Certificate := string;
     XPathValue := list XmlNode;
     fromstring := refusing_fromstring;
     XMLVerifier_verify := double_verify;
     xpath := double_xpath;
     NAMESPACE_MAP := {[ "ds" := "http://www.w3.org/2000/09/xmldsig#" ]};
     is_signed := XmlParser_is_signed |}.

(** Two properties that share a name, and one with a name of its own. *)
Definition other_answer : utils.PyFunction nat :=
  {| utils.fn_name := "answer";
     utils.fn_module := "demo";
     utils.fn_doc := None;
     utils.fn_call := fun d => (Returns 7, d) |}.

(** One package [foo.bar] with one attribute [MyClass]. *)
Definition importer : utils.Importer :=
  {| utils.PyModule := string;
     utils.PyObject := nat;
     utils.import_module := fun name =>
       if String.eqb name "foo.bar" then Returns name
       else Raises (Foreign "ModuleNotFoundError" name);
     utils.getattr := fun module attr =>
       if String.eqb attr "MyClass" then Returns 7
       else Raises (AttributeError attr) |}.

(** One certificate file, one key file, one file that is not UTF-8. *)
Definition files : utils.FileSystem :=
  {| utils.read_binary := fun filename =>
       if String.eqb filename "cert.pem" then Returns (double_public_bytes 3)
       else if String.eqb filename "key.pem" then Returns [45; 45; 82; 45; 45]%N
       else if String.eqb filename "ec.pem" then Returns [45; 45; 69; 45; 45]%N
       else if String.eqb filename "latin1.pem" then Returns [45; 45; 233]%N
       else Raises (Foreign "FileNotFoundError" filename) |}.

(** Key kinds; the armour is two dashes, the initial of the kind, two
    dashes. *)
Inductive KeyKind : Type :=
| RSA
| DSA
| DH
| EC.

Definition double_load_key (data : list N) : Result KeyKind :=
  match data with
  | [45; 45; 82; 45; 45]%N => Returns RSA
  | [45; 45; 68; 45; 45]%N => Returns DSA
  | [45; 45; 72; 45; 45]%N => Returns DH
  | [45; 45; 69; 45; 45]%N => Returns EC
  | _ => Raises (ValueError "Could not deserialize key data")
  end.

Definition keys : utils.PrivateKeys :=
  {| utils.PrivateKey := KeyKind;
     utils.load_pem_private_key := double_load_key;
     utils.is_RSAPrivateKey := fun k => match k with RSA => true | _ => false end;
     utils.is_DSAPrivateKey := fun k => match k with DSA => true | _ => false end;
     utils.is_DHPrivateKey := fun k => match k with DH => true | _ => false end |}.

End double.

(** * Properties of xml_parser.py *)

Section ParserFacts.
Import xml_parser.
Context `{E : Env}.

Lemma certificate_parsed_instance s c t :
  certificate (parsed_instance s c t) = c.
Proof. unfold certificate, XmlParser_certificate. now destruct c. Qed.

Lemma parse_request_returns lg s t h :
  fromstring s = Returns t ->
  parse_request lg s h = (Returns t, h ++ [CallFromstring s]).
Proof.
  intros Hp. unfold parse_request, try_except, call. now rewrite Hp.
Qed.

Lemma parse_request_lxml_error lg s d h :
  fromstring s = Raises (LxmlError d) ->
  parse_request lg s h =
    (Raises (ValueError "Could not parse request XML"),
     h ++ [CallFromstring s;
           LogException lg "Could not parse request XML" (LxmlError d)]).
Proof.
  intros Hp. unfold parse_request, try_except, call. rewrite Hp. cbn.
  unfold bind, logger_exception, raise. now rewrite <- app_assoc.
Qed.

Lemma parse_request_other_exception lg s e h :
  fromstring s = Raises e ->
  is_lxml_etree_Error e = false ->
  parse_request lg s h = (Raises e, h ++ [CallFromstring s]).
Proof.
  intros Hp He. unfold parse_request, try_except, call. now rewrite Hp, He.
Qed.

(** [__init__] after a successful parse: what remains is the signature
    branch. *)
Lemma init_after_parse s c t h :
  fromstring s = Returns t ->
  __init__ s c h =
    match is_signed (parsed_instance s c t) with
    | Returns true =>
        match XMLVerifier_verify t c with
        | Returns r =>
            (Returns (parsed_instance s c (signed_xml r)),
             h ++ [CallFromstring s; CallVerify t c])
        | Raises e => (Raises e, h ++ [CallFromstring s; CallVerify t c])
        end
    | Returns false => (Returns (parsed_instance s c t), h ++ [CallFromstring s])
    | Raises e => (Raises e, h ++ [CallFromstring s])
    end.
Proof.
  intros Hp. unfold __init__, bind at 1.
  rewrite (parse_request_returns _ _ _ _ Hp).
  replace (match c with Some c0 => Some c0 | None => None end) with c
    by now destruct c.
  fold (parsed_instance s c t).
  unfold bind at 1, lift.
  destruct (is_signed (parsed_instance s c t)) as [[|]|e]; try reflexivity.
  rewrite certificate_parsed_instance.
  unfold bind, parse_signed, bind, call, ret. cbn [xml_tree parsed_instance].
  destruct (XMLVerifier_verify t c) as [r|e]; rewrite <- app_assoc; reflexivity.
Qed.

Lemma query_all_events (self : XmlParser Certificate) qs h :
  exists evs,
    snd (query_all self qs h) = h ++ evs /\
    Forall (uses_namespaces NAMESPACE_MAP) evs.
Proof.
  revert h. induction qs as [|q qs IH]; intros h.
  - exists []. cbn. split; [now rewrite app_nil_r | constructor].
  - cbn [query_all]. unfold bind at 1.
    unfold _xpath_xml_tree, _xpath, get_namespace_map, call.
    destruct (xpath (xml_tree self) q NAMESPACE_MAP) as [v|e].
    + unfold bind at 1.
      destruct (IH (h ++ [CallXPath (xml_tree self) q NAMESPACE_MAP])) as (evs & Hev & Hall).
      exists (CallXPath (xml_tree self) q NAMESPACE_MAP :: evs). split.
      * destruct (query_all self qs _) as [[vs|e] h']; cbn in *;
          rewrite Hev, <- app_assoc; reflexivity.
      * constructor; [reflexivity | assumption].
    + exists [CallXPath (xml_tree self) q NAMESPACE_MAP]. split; [reflexivity|].
      constructor; [reflexivity | constructor].
Qed.

(** With the base class's own [is_signed], construction ends in
    [NotImplementedError] as soon as the text parses. *)
Lemma init_abstract_is_signed s c t h :
  fromstring s = Returns t ->
  is_signed (parsed_instance s c t) = XmlParser_is_signed (parsed_instance s c t) ->
  fst (__init__ s c h) = Raises NotImplementedError.
Proof.
  intros Hp Hs. rewrite (init_after_parse _ _ _ _ Hp), Hs. reflexivity.
Qed.

(** C1: a well-formed document that is signed and whose signature verifies
    under the supplied certificate is parsed successfully, and the working
    tree of the instance is exactly the [signed_xml] of the verification
    result: every element of it is one the verifier returned, and no element
    of the parsed document outside that subtree is in it. *)
Theorem init_valid_signature_replaces_tree s cert t r h :
  fromstring s = Returns t ->
  is_signed (parsed_instance s (Some cert) t) = Returns true ->
  XMLVerifier_verify t (Some cert) = Returns r ->
  exists self,
    __init__ s (Some cert) h =
      (Returns self, h ++ [CallFromstring s; CallVerify t (Some cert)]) /\
    xml_tree self = signed_xml r /\
    (forall e, In e (iter (xml_tree self)) -> In e (iter (signed_xml r))) /\
    (forall e, In e (iter t) -> ~ In e (iter (signed_xml r)) ->
               ~ In e (iter (xml_tree self))).
Proof.
  intros Hp Hs Hv. exists (parsed_instance s (Some cert) (signed_xml r)).
  rewrite (init_after_parse _ _ _ _ Hp), Hs, Hv. cbn [xml_tree parsed_instance].
  repeat split; auto.
Qed.

(** C2: when the document is signed and the verifier fails, [__init__]
    raises the verifier's exception; no instance, verified or unverified, is
    produced. *)
Theorem init_failed_verification_raises s c t e h :
  fromstring s = Returns t ->
  is_signed (parsed_instance s c t) = Returns true ->
  XMLVerifier_verify t c = Raises e ->
  __init__ s c h = (Raises e, h ++ [CallFromstring s; CallVerify t c]) /\
  (forall self, fst (__init__ s c h) <> Returns self).
Proof.
  intros Hp Hs Hv. rewrite (init_after_parse _ _ _ _ Hp), Hs, Hv.
  split; [reflexivity | cbn; discriminate].
Qed.

(** C3: when [is_signed] is false the instance keeps the tree exactly as
    [parse_request] produced it, and the verifier is not called. *)
Theorem init_unsigned_keeps_parsed_tree s c t h :
  fromstring s = Returns t ->
  is_signed (parsed_instance s c t) = Returns false ->
  exists self evs,
    __init__ s c h = (Returns self, h ++ evs) /\
    self = parsed_instance s c t /\
    xml_tree self = t /\
    evs = [CallFromstring s] /\
    forallb (fun ev => negb (is_CallVerify ev)) evs = true.
Proof.
  intros Hp Hs. exists (parsed_instance s c t), [CallFromstring s].
  rewrite (init_after_parse _ _ _ _ Hp), Hs. repeat split.
Qed.

(** C4: when the parser reports the text as not well-formed (an
    [lxml.etree.Error]), [parse_request] raises [ValueError] with the fixed
    message, whatever the text was, and [__init__] builds no instance. *)
Theorem parse_request_malformed_raises_ValueError lg s d h :
  fromstring s = Raises (LxmlError d) ->
  fst (parse_request lg s h) = Raises (ValueError "Could not parse request XML") /\
  (forall c, fst (__init__ s c h) = Raises (ValueError "Could not parse request XML")) /\
  (forall s' d' h',
      fromstring s' = Raises (LxmlError d') ->
      fst (parse_request lg s' h') = fst (parse_request lg s h)).
Proof.
  intros Hp. rewrite (parse_request_lxml_error _ _ _ _ Hp). repeat split.
  - intros c. unfold __init__, bind.
    now rewrite (parse_request_lxml_error _ _ _ _ Hp).
  - intros s' d' h' Hp'. now rewrite (parse_request_lxml_error _ _ _ _ Hp').
Qed.

(** C6, as amended: with no certificate supplied the verifier is still
    called, with [x509_cert=None], and on success the working tree becomes
    its [signed_xml] in the same way as with a supplied certificate.  When
    both verifications return the same subtree the two instances have the
    same tree and answer every query alike. *)
Theorem init_without_certificate_same_path s t r h :
  fromstring s = Returns t ->
  is_signed (parsed_instance s None t) = Returns true ->
  XMLVerifier_verify t None = Returns r ->
  __init__ s None h =
    (Returns (parsed_instance s None (signed_xml r)),
     h ++ [CallFromstring s; CallVerify t None]) /\
  (forall cert r',
      is_signed (parsed_instance s (Some cert) t) = Returns true ->
      XMLVerifier_verify t (Some cert) = Returns r' ->
      signed_xml r' = signed_xml r ->
      same_outcome (fst (__init__ s None h)) (fst (__init__ s (Some cert) h)) /\
      forall q h',
        fst (_xpath_xml_tree (parsed_instance s None (signed_xml r)) q h') =
        fst (_xpath_xml_tree (parsed_instance s (Some cert) (signed_xml r')) q h')).
Proof.
  intros Hp Hs Hv. rewrite !(init_after_parse _ _ _ _ Hp), Hs, Hv.
  split; [reflexivity|]. intros cert r' Hs' Hv' Heq.
  rewrite !(init_after_parse _ _ _ _ Hp), Hs', Hv'. cbn. split; [congruence|].
  intros q h'. now rewrite Heq.
Qed.

(** C8: on every instance, every XPath evaluation made through [_xpath] and
    [_xpath_xml_tree] is given [NAMESPACE_MAP], which is also what
    [get_namespace_map] returns. *)
Theorem xpath_uses_fixed_namespace_map (self : XmlParser Certificate) :
  get_namespace_map self = NAMESPACE_MAP /\
  (forall base q h,
      _xpath self base q h =
        (xpath base q NAMESPACE_MAP, h ++ [CallXPath base q NAMESPACE_MAP])) /\
  (forall q h,
      _xpath_xml_tree self q h =
        (xpath (xml_tree self) q NAMESPACE_MAP,
         h ++ [CallXPath (xml_tree self) q NAMESPACE_MAP])) /\
  (forall qs h, exists evs,
      snd (query_all self qs h) = h ++ evs /\
      Forall (uses_namespaces NAMESPACE_MAP) evs).
Proof.
  repeat split. apply query_all_events.
Qed.

End ParserFacts.

(** Concrete runs of the parser against the test doubles. *)

Lemma init_valid_signature_witness :
  exists self : xml_parser.XmlParser string,
    @xml_parser.__init__ double.env double.doc_wrapped (Some "k7") [] =
      (Returns self,
       [] ++ [@xml_parser.CallFromstring double.env double.doc_wrapped;
              @xml_parser.CallVerify double.env double.tree_wrapped (Some "k7")]) /\
    xml_parser.xml_tree self = double.assertion_alice /\
    (forall e, In e (iter (xml_parser.xml_tree self)) -> In e (iter double.assertion_alice)) /\
    (forall e, In e (iter double.tree_wrapped) -> ~ In e (iter double.assertion_alice) ->
               ~ In e (iter (xml_parser.xml_tree self))).
Proof.
  apply (@init_valid_signature_replaces_tree double.env double.doc_wrapped "k7"
           double.tree_wrapped
           {| xml_parser.signed_data := "alice";
              xml_parser.signed_xml := double.assertion_alice;
              xml_parser.signature_xml := double.signature_alice |} []);
    reflexivity.
Defined.

Lemma init_failed_verification_witness :
  @xml_parser.__init__ double.env double.doc_tampered (Some "k7") [] =
    (Raises (Foreign "signxml.exceptions.InvalidDigest" "digest mismatch"),
     [] ++ [@xml_parser.CallFromstring double.env double.doc_tampered;
            @xml_parser.CallVerify double.env double.tree_tampered (Some "k7")]) /\
  (forall self : xml_parser.XmlParser string,
      fst (@xml_parser.__init__ double.env double.doc_tampered (Some "k7") []) <> Returns self).
Proof.
  apply (@init_failed_verification_raises double.env double.doc_tampered (Some "k7")
           double.tree_tampered); reflexivity.
Defined.

Lemma init_unsigned_witness :
  exists (self : xml_parser.XmlParser string) evs,
    @xml_parser.__init__ double.env double.doc_unsigned None [] = (Returns self, [] ++ evs) /\
    self = @xml_parser.parsed_instance double.env double.doc_unsigned None double.tree_unsigned /\
    xml_parser.xml_tree self = double.tree_unsigned /\
    evs = [@xml_parser.CallFromstring double.env double.doc_unsigned] /\
    forallb (fun ev => negb (@xml_parser.is_CallVerify double.env ev)) evs = true.
Proof.
  apply (@init_unsigned_keeps_parsed_tree double.env double.doc_unsigned None
           double.tree_unsigned []); reflexivity.
Defined.

Lemma parse_request_malformed_witness :
  fst (@xml_parser.parse_request double.env xml_parser.module_name double.doc_malformed [])
    = Raises (ValueError "Could not parse request XML") /\
  (forall c, fst (@xml_parser.__init__ double.env double.doc_malformed c [])
             = Raises (ValueError "Could not parse request XML")) /\
  fst (@xml_parser.parse_request double.env xml_parser.module_name "not xml" []) =
  fst (@xml_parser.parse_request double.env xml_parser.module_name double.doc_malformed []).
Proof.
  destruct (@parse_request_malformed_raises_ValueError double.env xml_parser.module_name
              double.doc_malformed "Premature end of data in tag Assertion line 1" []
              eq_refl) as (Hreq & Hinit & Hsame).
  split; [exact Hreq|]. split; [exact Hinit|].
  apply (Hsame "not xml" "Start tag expected, '<' not found" []). reflexivity.
Defined.

Lemma init_without_certificate_witness :
  @xml_parser.__init__ double.env double.doc_wrapped None [] =
    (Returns (@xml_parser.parsed_instance double.env double.doc_wrapped None double.assertion_alice),
     [] ++ [@xml_parser.CallFromstring double.env double.doc_wrapped;
            @xml_parser.CallVerify double.env double.tree_wrapped None]) /\
  @xml_parser.same_outcome double.env
    (fst (@xml_parser.__init__ double.env double.doc_wrapped None []))
    (fst (@xml_parser.__init__ double.env double.doc_wrapped (Some "k7") [])).
Proof.
  destruct (@init_without_certificate_same_path double.env double.doc_wrapped
              double.tree_wrapped
              {| xml_parser.signed_data := "alice";
                 xml_parser.signed_xml := double.assertion_alice;
                 xml_parser.signature_xml := double.signature_alice |} []
              eq_refl eq_refl eq_refl) as [Hrun Hsame].
  split; [exact Hrun|].
  apply (Hsame "k7"
           {| xml_parser.signed_data := "alice";
              xml_parser.signed_xml := double.assertion_alice;
              xml_parser.signature_xml := double.signature_alice |});
    reflexivity.
Defined.

(** The unsigned assertion placed next to the signed one is not in the tree
    of the instance. *)
Example wrapped_assertion_is_dropped :
  exists self : xml_parser.XmlParser string,
    fst (@xml_parser.__init__ double.env double.doc_wrapped (Some "k7") []) = Returns self /\
    In double.assertion_alice (iter (xml_parser.xml_tree self)) /\
    ~ In double.assertion_mallory (iter (xml_parser.xml_tree self)).
Proof.
  eexists. split; [reflexivity|]. cbn. split; [now left|].
  intros [H|[]]. discriminate H.
Qed.

(** A certificate other than the one the signature was made with. *)
Example wrong_certificate_is_rejected :
  fst (@xml_parser.__init__ double.env double.doc_wrapped (Some "k8") []) =
    Raises (Foreign "signxml.exceptions.InvalidSignature" "key mismatch").
Proof. reflexivity. Qed.

(** C6, as stated, fails: the run without a certificate and the run with the
    trusted certificate both return, with the same tree, the same text and
    the same answer to every query; nothing marks the first as a weaker
    result. *)
Lemma embedded_certificate_outcome_not_distinct :
  exists self0 self1 : xml_parser.XmlParser string,
    fst (@xml_parser.__init__ double.env double.doc_wrapped None []) = Returns self0 /\
    fst (@xml_parser.__init__ double.env double.doc_wrapped (Some "k7") []) = Returns self1 /\
    @xml_parser.same_outcome double.env (Returns self0) (Returns self1) /\
    xml_parser.xml_tree self0 = xml_parser.xml_tree self1 /\
    xml_parser.xml_string self0 = xml_parser.xml_string self1 /\
    (forall q h, fst (@xml_parser._xpath_xml_tree double.env self0 q h) =
                 fst (@xml_parser._xpath_xml_tree double.env self1 q h)).
Proof.
  eexists _, _. split; [reflexivity|]. split; [reflexivity|].
  repeat split.
Qed.

(** * Properties of utils.py *)

Section CachedPropertyFacts.
Import utils.
Context {Value : Type}.
Implicit Types (self : cached_property Value) (o : Object Value) (v : Value).

Lemma set_raises_AttributeError self o v :
  exists msg, __set__ self o v = (Raises (AttributeError msg), o).
Proof. unfold __set__, self_name. eauto. Qed.

Lemma delete_raises_AttributeError self o :
  exists msg, __delete__ self o = (Raises (AttributeError msg), o).
Proof. unfold __delete__, self_name. eauto. Qed.

Lemma get_cached self o v :
  __dict__ o !! __name__ self = Some v ->
  __get__ self (Some o) = (Returns (GotValue v), Some o).
Proof. intros Hc. unfold __get__. now rewrite Hc. Qed.

Lemma get_computes self o v d :
  __dict__ o !! __name__ self = None ->
  fn_call (func self) (__dict__ o) = (Returns v, d) ->
  __get__ self (Some o) =
    (Returns (GotValue v),
     Some {| class_name := class_name o;
             __dict__ := <[__name__ self := v]> d;
             func_calls := S (func_calls o) |}).
Proof. intros Hm Hf. unfold __get__. now rewrite Hm, Hf. Qed.

Lemma access_cached self o v a :
  __dict__ o !! __name__ self = Some v ->
  exists r, access self a o = (r, o) /\ cached_outcome v a r.
Proof.
  intros Hc. destruct a as [|w|]; cbn [access cached_outcome].
  - rewrite (get_cached _ _ _ Hc). eauto.
  - destruct (set_raises_AttributeError self o w) as [msg ->]. eauto.
  - destruct (delete_raises_AttributeError self o) as [msg ->]. eauto.
Qed.

Lemma access_assign_or_delete self o a :
  a <> Load -> snd (access self a o) = o.
Proof.
  destruct a as [|w|]; [congruence| |]; intros _; cbn [access].
  - now destruct (set_raises_AttributeError self o w) as [msg ->].
  - now destruct (delete_raises_AttributeError self o) as [msg ->].
Qed.

Lemma accesses_cached self prog : forall o v,
  __dict__ o !! __name__ self = Some v ->
  snd (accesses self prog o) = o /\
  Forall2 (cached_outcome v) prog (fst (accesses self prog o)).
Proof.
  induction prog as [|a prog IH]; intros o v Hc; cbn [accesses].
  - split; [reflexivity | constructor].
  - destruct (access_cached self o v a Hc) as (r & -> & Hr).
    destruct (IH o v Hc) as [Hs Hf].
    destruct (accesses self prog o) as [rs o'']. cbn in *.
    split; [assumption | now constructor].
Qed.



End CachedPropertyFacts.

Section CodecFacts.
Import utils.

Lemma prepend_returns c r s :
  prepend c r = Returns s -> exists s', r = Returns s' /\ s = c :: s'.
Proof. destruct r; cbn; intros H; inversion H; eauto. Qed.

Lemma encode_cons c octets s out :
  encode_code_point c = Some octets ->
  encode s = Returns out ->
  encode (c :: s) = Returns (octets ++ out).
Proof. intros Hc Hs. cbn [encode]. now rewrite Hc, Hs. Qed.

Lemma encode_code_point_1 b0 :
  (b0 <? 0x80)%N = true -> encode_code_point b0 = Some [b0].
Proof. intros H. unfold encode_code_point. now rewrite H. Qed.

Lemma encode_code_point_2 b0 b1 :
  ((0xC2 <=? b0) && (b0 <? 0xE0))%N = true ->
  is_continuation b1 = true ->
  encode_code_point ((b0 - 0xC0) * 64 + (b1 - 0x80))%N = Some [b0; b1].
Proof.
  intros H0 H1. unfold is_continuation in *. ranges. unfold encode_code_point.
  destruct (N.ltb_spec ((b0 - 0xC0) * 64 + (b1 - 0x80)) 0x80); [lia|].
  destruct (N.ltb_spec ((b0 - 0xC0) * 64 + (b1 - 0x80)) 0x800); [|lia].
  do 2 f_equal; [lia|]. f_equal. lia.
Qed.

Lemma encode_code_point_3 b0 b1 b2 :
  let c := ((b0 - 0xE0) * 4096 + (b1 - 0x80) * 64 + (b2 - 0x80))%N in
  ((0xE0 <=? b0) && (b0 <? 0xF0))%N = true ->
  is_continuation b1 = true ->
  is_continuation b2 = true ->
  (0x800 <=? c)%N = true ->
  is_surrogate c = false ->
  encode_code_point c = Some [b0; b1; b2].
Proof.
  intros c H0 H1 H2 Hmin Hsur. unfold encode_code_point. rewrite Hsur.
  unfold is_continuation in *. ranges. subst c.
  destruct (N.ltb_spec ((b0 - 0xE0) * 4096 + (b1 - 0x80) * 64 + (b2 - 0x80)) 0x80); [lia|].
  destruct (N.ltb_spec ((b0 - 0xE0) * 4096 + (b1 - 0x80) * 64 + (b2 - 0x80)) 0x800); [lia|].
  destruct (N.ltb_spec ((b0 - 0xE0) * 4096 + (b1 - 0x80) * 64 + (b2 - 0x80)) 0x10000); [|lia].
  do 2 f_equal; [lia|]. f_equal; [lia|]. f_equal. lia.
Qed.

Lemma encode_code_point_4 b0 b1 b2 b3 :
  let c := ((b0 - 0xF0) * 262144 + (b1 - 0x80) * 4096
            + (b2 - 0x80) * 64 + (b3 - 0x80))%N in
  ((0xF0 <=? b0) && (b0 <? 0xF5))%N = true ->
  is_continuation b1 = true ->
  is_continuation b2 = true ->
  is_continuation b3 = true ->
  (0x10000 <=? c)%N = true ->
  (c <? 0x110000)%N = true ->
  encode_code_point c = Some [b0; b1; b2; b3].
Proof.
  intros c H0 H1 H2 H3 Hmin Hmax. unfold encode_code_point.
  unfold is_continuation in *. ranges. subst c.
  set (c := ((b0 - 0xF0) * 262144 + (b1 - 0x80) * 4096
             + (b2 - 0x80) * 64 + (b3 - 0x80))%N) in *.
  destruct (N.ltb_spec c 0x80); [lia|].
  destruct (N.ltb_spec c 0x800); [lia|].
  destruct (N.ltb_spec c 0x10000); [lia|].
  destruct (N.ltb_spec c 0x110000); [|lia].
  subst c.
  do 2 f_equal; [lia|]. f_equal; [lia|]. f_equal; [lia|]. f_equal. lia.
Qed.

(** Re-encoding a decoded text gives back the octets it was decoded from. *)
Lemma encode_decode_bounded n : forall b s,
  length b <= n -> decode b = Returns s -> encode s = Returns b.
Proof.
  induction n as [|n IH]; intros b s Hlen Hd.
  - destruct b; [|cbn in Hlen; lia]. cbn in Hd. now inversion Hd.
  - destruct b as [|b0 r0]; [cbn in Hd; now inversion Hd|].
    cbn [decode] in Hd. cbn [length] in Hlen.
    destruct (b0 <? 0x80)%N eqn:E1.
    { apply prepend_returns in Hd as (s' & Hd & ->).
      apply (encode_cons _ [b0]); [now apply encode_code_point_1|].
      apply IH; [lia | assumption]. }
    destruct ((0xC2 <=? b0) && (b0 <? 0xE0))%N eqn:E2.
    { destruct r0 as [|b1 r1]; [discriminate|].
      destruct (is_continuation b1) eqn:C1; [|discriminate].
      apply prepend_returns in Hd as (s' & Hd & ->).
      apply (encode_cons _ [b0; b1]); [now apply encode_code_point_2|].
      apply IH; [cbn [length] in Hlen; lia | assumption]. }
    destruct ((0xE0 <=? b0) && (b0 <? 0xF0))%N eqn:E3.
    { destruct r0 as [|b1 [|b2 r2]]; try discriminate.
      cbv zeta in Hd.
      destruct (is_continuation b1) eqn:C1; [|discriminate].
      destruct (is_continuation b2) eqn:C2; [|discriminate].
      cbn [andb] in Hd.
      destruct (0x800 <=? _)%N eqn:Hmin; [|discriminate].
      cbn [andb] in Hd.
      destruct (is_surrogate _) eqn:Hsur; [discriminate|].
      cbn [negb] in Hd.
      apply prepend_returns in Hd as (s' & Hd & ->).
      apply (encode_cons _ [b0; b1; b2]);
        [now apply encode_code_point_3|].
      apply IH; [cbn [length] in Hlen; lia | assumption]. }
    destruct ((0xF0 <=? b0) && (b0 <? 0xF5))%N eqn:E4; [|discriminate].
    destruct r0 as [|b1 [|b2 [|b3 r3]]]; try discriminate.
    cbv zeta in Hd.
    destruct (is_continuation b1) eqn:C1; [|discriminate].
    destruct (is_continuation b2) eqn:C2; [|discriminate].
    destruct (is_continuation b3) eqn:C3; [|discriminate].
    cbn [andb] in Hd.
    destruct (0x10000 <=? _)%N eqn:Hmin; [|discriminate].
    cbn [andb] in Hd.
    destruct (_ <? 0x110000)%N eqn:Hmax; [|discriminate].
    apply prepend_returns in Hd as (s' & Hd & ->).
    apply (encode_cons _ [b0; b1; b2; b3]);
      [now apply encode_code_point_4|].
    apply IH; [cbn [length] in Hlen; lia | assumption].
Qed.

Lemma encode_decode b s :
  decode b = Returns s -> encode s = Returns b.
Proof. apply (encode_decode_bounded (length b)). lia. Qed.

(** ASCII octets decode to themselves. *)
Lemma decode_ascii b :
  is_ascii b = true -> decode b = Returns b.
Proof.
  induction b as [|b0 r IH]; [reflexivity|].
  cbn [is_ascii forallb]. intros H. apply andb_true_iff in H as [H0 Hr].
  cbn [decode]. rewrite H0. unfold is_ascii in IH. now rewrite (IH Hr).
Qed.

Lemma decode_after_code_point c octets out :
  encode_code_point c = Some octets ->
  decode (octets ++ out) = prepend c (decode out).
Proof.
  unfold encode_code_point, is_surrogate. intros Hc.
  destruct (N.ltb_spec c 0x80).
  { inversion Hc; subst. cbn [app decode].
    destruct (N.ltb_spec c 0x80); [reflexivity | lia]. }
  destruct (N.ltb_spec c 0x800).
  { inversion Hc; subst. cbn [app decode]. unfold is_continuation.
    compare_all. cbn [andb]. f_equal. lia. }
  destruct (N.ltb_spec c 0x10000).
  { destruct (N.leb_spec 0xD800 c); destruct (N.ltb_spec c 0xE000);
      cbn [andb] in Hc; try discriminate;
      inversion Hc; subst; cbn [app decode]; cbv zeta;
      unfold is_continuation, is_surrogate; compare_all; cbn [andb negb];
      f_equal; lia. }
  destruct (N.ltb_spec c 0x110000); [|discriminate].
  inversion Hc; subst. cbn [app decode]. cbv zeta. unfold is_continuation.
  compare_all. cbn [andb]. f_equal. lia.
Qed.

(** Decoding an encoded text gives back the text. *)
Lemma decode_encode s : forall b,
  encode s = Returns b -> decode b = Returns s.
Proof.
  induction s as [|c rest IH]; intros b Hb; cbn [encode] in Hb.
  - now inversion Hb.
  - destruct (encode_code_point c) as [octets|] eqn:Hc; [|discriminate].
    destruct (encode rest) as [out|e]; [|discriminate].
    inversion Hb; subst b.
    rewrite (decode_after_code_point _ _ _ Hc), (IH out eq_refl). reflexivity.
Qed.

(** The euro sign, a letter, an emoji and an accented letter. *)
Example decode_mixed :
  decode [0xE2; 0x82; 0xAC; 0x41; 0xF0; 0x9F; 0x98; 0x80; 0xC3; 0xA9]%N
  = Returns [0x20AC; 0x41; 0x1F600; 0xE9]%N.
Proof. reflexivity. Qed.

(** An overlong form, an encoded surrogate and a value above U+10FFFF. *)
Example decode_rejects :
  decode [0xC0; 0x80]%N = Raises UnicodeDecodeError /\
  decode [0xED; 0xA0; 0x80]%N = Raises UnicodeDecodeError /\
  decode [0xF4; 0x90; 0x80; 0x80]%N = Raises UnicodeDecodeError.
Proof. repeat split. Qed.

Example encode_rejects_surrogate :
  encode [0x41; 0xD800]%N = Raises UnicodeEncodeError.
Proof. reflexivity. Qed.

End CodecFacts.

Section CertificateFacts.
Import utils.
Context `{X : X509}.

Lemma certificate_from_to_string (c : Certificate) s :
  load_pem_x509_certificate (public_bytes_PEM c) = Returns c ->
  certificate_to_string c = Returns s ->
  certificate_from_string s = Returns c.
Proof.
  intros Hload Hs. unfold certificate_to_string in Hs.
  unfold certificate_from_string. now rewrite (encode_decode _ _ Hs).
Qed.

(** C10: [certificate_to_string] returns a string from which
    [certificate_from_string] returns the certificate it started from, for
    every certificate whose PEM encoding is ASCII and is loaded back by the
    library as that certificate. *)
Theorem certificate_string_round_trip (c : Certificate) :
  is_ascii (public_bytes_PEM c) = true ->
  load_pem_x509_certificate (public_bytes_PEM c) = Returns c ->
  exists s, certificate_to_string c = Returns s /\
            certificate_from_string s = Returns c.
Proof.
  intros Hascii Hload. exists (public_bytes_PEM c).
  assert (Hs : certificate_to_string c = Returns (public_bytes_PEM c))
    by (unfold certificate_to_string; now apply decode_ascii).
  split; [exact Hs | now apply certificate_from_to_string].
Qed.

End CertificateFacts.

(** Concrete runs of [cached_property] and of the certificate round trip. *)

(** [name] overrides the function's own name unless it is empty. *)
Example cached_property_name :
  utils.__name__ (utils.__init__ double.answer None None) = "answer" /\
  utils.__name__ (utils.__init__ double.answer (Some "") None) = "answer" /\
  utils.__name__ (utils.__init__ double.answer (Some "alias") None) = "alias".
Proof. repeat split. Qed.


(** A call that raises caches nothing: the next read calls the function
    again. *)
Example raising_function_is_called_again :
  let self := utils.__init__ double.broken None None in
  fst (utils.accesses self [utils.Load; utils.Load] double.fresh_object) =
    [Raises (ValueError "boom"); Raises (ValueError "boom")] /\
  utils.func_calls
    (snd (utils.accesses self [utils.Load; utils.Load] double.fresh_object)) = 2.
Proof. split; reflexivity. Qed.

(** Read on the class, the property returns itself. *)
Example get_on_class :
  let self := utils.__init__ double.answer None None in
  utils.__get__ self None = (Returns (utils.GotDescriptor self), None).
Proof. reflexivity. Qed.


Lemma certificate_round_trip_witness :
  exists s, @utils.certificate_to_string double.x509 3%N = Returns s /\
            @utils.certificate_from_string double.x509 s = Returns 3%N.
Proof.
  apply (@certificate_string_round_trip double.x509 3%N); reflexivity.
Defined.

(** * Further properties of xml_parser.py *)

Section ParserRuns.
Import xml_parser.
Context `{E : Env}.

(** [__init__] when the parser raised. *)
Lemma init_parse_failure s c e h :
  fromstring s = Raises e ->
  __init__ s c h =
    if is_lxml_etree_Error e
    then (Raises (ValueError "Could not parse request XML"),
          h ++ [CallFromstring s;
                LogException module_name "Could not parse request XML" e])
    else (Raises e, h ++ [CallFromstring s]).
Proof.
  intros Hp. unfold __init__, bind.
  destruct (is_lxml_etree_Error e) eqn:He.
  - destruct e; try discriminate.
    now rewrite (parse_request_lxml_error _ _ _ _ Hp).
  - now rewrite (parse_request_other_exception _ _ _ _ Hp He).
Qed.

(** Every way in which [__init__] returns an instance. *)
Lemma init_returns_inv s c h self h' :
  __init__ s c h = (Returns self, h') ->
  exists t,
    fromstring s = Returns t /\
    ((is_signed (parsed_instance s c t) = Returns false /\
      self = parsed_instance s c t /\
      h' = h ++ [CallFromstring s]) \/
     (is_signed (parsed_instance s c t) = Returns true /\
      exists r, XMLVerifier_verify t c = Returns r /\
                self = parsed_instance s c (signed_xml r) /\
                h' = h ++ [CallFromstring s; CallVerify t c])).
Proof.
  intros Hrun. destruct (fromstring s) as [t|e] eqn:Hp.
  - exists t. split; [reflexivity|].
    rewrite (init_after_parse _ _ _ _ Hp) in Hrun.
    destruct (is_signed (parsed_instance s c t)) as [[|]|e]; try discriminate.
    + right. split; [reflexivity|].
      destruct (XMLVerifier_verify t c) as [r|e]; [|discriminate].
      exists r. inversion Hrun. auto.
    + left. inversion Hrun. auto.
  - rewrite (init_parse_failure _ _ _ _ Hp) in Hrun.
    destruct (is_lxml_etree_Error e); discriminate.
Qed.

(** X1: an exception of the parser that is not an [lxml.etree.Error] (such
    as defusedxml's refusal of an entity declaration) leaves [parse_request]
    and [__init__] as it is: it is not turned into the [ValueError], nothing
    is logged, and neither [is_signed] nor the verifier is reached. *)
Theorem init_foreign_parser_exception_propagates s c e lg h :
  fromstring s = Raises e ->
  is_lxml_etree_Error e = false ->
  parse_request lg s h = (Raises e, h ++ [CallFromstring s]) /\
  __init__ s c h = (Raises e, h ++ [CallFromstring s]).
Proof.
  intros Hp He. split.
  - now apply parse_request_other_exception.
  - now rewrite (init_parse_failure _ _ _ _ Hp), He.
Qed.

(** X2: of the calls [__init__] and [parse_signed] make themselves, the
    first is the parser, called exactly once with the given text; the
    verifier is called at most once, and only on the tree the parser
    returned, with the certificate that was passed, after [is_signed]
    returned [True]. *)
Theorem init_trace_shape s c h :
  exists evs,
    snd (__init__ s c h) = h ++ CallFromstring s :: evs /\
    (forall t, ~ In (CallFromstring t) evs) /\
    (forall d k, In (CallVerify d k) evs ->
       fromstring s = Returns d /\ k = c /\
       is_signed (parsed_instance s c d) = Returns true) /\
    length (List.filter is_CallVerify evs) <= 1.
Proof.
  destruct (fromstring s) as [t|e] eqn:Hp.
  - rewrite (init_after_parse _ _ _ _ Hp).
    destruct (is_signed (parsed_instance s c t)) as [[|]|e] eqn:Hs.
    + exists [CallVerify t c].
      split; [destruct (XMLVerifier_verify t c); reflexivity|].
      split; [intros t' [H|[]]; discriminate|].
      split; [intros d k [H|[]]; inversion H; subst; auto|].
      cbn; lia.
    + exists []. cbn. repeat split; try lia; intros; tauto.
    + exists []. cbn. repeat split; try lia; intros; tauto.
  - rewrite (init_parse_failure _ _ _ _ Hp).
    destruct (is_lxml_etree_Error e).
    + exists [LogException module_name "Could not parse request XML" e].
      split; [reflexivity|].
      split; [intros t' [H|[]]; discriminate|].
      split; [intros d k [H|[]]; discriminate|].
      cbn; lia.
    + exists []. cbn. repeat split; try lia; intros; tauto.
Qed.

(** X3: an instance that [__init__] returns keeps the whole text it was
    given in [xml_string], also when its tree was replaced by the signed
    subtree, and [self.certificate] is the certificate that was passed. *)
Theorem init_keeps_text_and_certificate s c h self h' :
  __init__ s c h = (Returns self, h') ->
  xml_string self = s /\
  certificate self = c /\
  _logger self = module_name.
Proof.
  intros Hrun.
  destruct (init_returns_inv _ _ _ _ _ Hrun) as (t & _ & [(_ & -> & _)|(_ & r & _ & -> & _)]);
    cbn [xml_string _logger parsed_instance];
    rewrite certificate_parsed_instance; auto.
Qed.

(** X4: a run of [__init__] writes a log record exactly when the parser
    raised an [lxml.etree.Error]: then one record, on the module's logger,
    with the fixed message and that exception; otherwise none. *)
Theorem init_logs_only_lxml_errors s c :
  List.filter is_LogException (snd (__init__ s c [])) =
    match fromstring s with
    | Raises (LxmlError d) =>
        [LogException module_name "Could not parse request XML" (LxmlError d)]
    | _ => []
    end.
Proof.
  destruct (fromstring s) as [t|e] eqn:Hp.
  - rewrite (init_after_parse _ _ _ _ Hp).
    destruct (is_signed (parsed_instance s c t)) as [[|]|e]; try reflexivity.
    destruct (XMLVerifier_verify t c); reflexivity.
  - rewrite (init_parse_failure _ _ _ _ Hp). destruct e; reflexivity.
Qed.

(** X5: an exception raised by [is_signed] (for the class itself,
    [NotImplementedError]) ends [__init__] with that exception, after the
    parse and before any call of the verifier. *)
Theorem init_is_signed_exception_propagates s c t e h :
  fromstring s = Returns t ->
  is_signed (parsed_instance s c t) = Raises e ->
  __init__ s c h = (Raises e, h ++ [CallFromstring s]).
Proof.
  intros Hp Hs. now rewrite (init_after_parse _ _ _ _ Hp), Hs.
Qed.

(** X6: after a construction that went through verification, a query made
    with [_xpath_xml_tree] is evaluated on the signed subtree, not on the
    tree that was parsed. *)
Theorem query_after_verification_sees_signed_subtree s c t r q h :
  fromstring s = Returns t ->
  is_signed (parsed_instance s c t) = Returns true ->
  XMLVerifier_verify t c = Returns r ->
  exists self h1,
    __init__ s c h = (Returns self, h1) /\
    _xpath_xml_tree self q h1 =
      (xpath (signed_xml r) q NAMESPACE_MAP,
       h ++ [CallFromstring s; CallVerify t c;
             CallXPath (signed_xml r) q NAMESPACE_MAP]).
Proof.
  intros Hp Hs Hv. eexists _, _.
  rewrite (init_after_parse _ _ _ _ Hp), Hs, Hv. split; [reflexivity|].
  unfold _xpath_xml_tree, _xpath, get_namespace_map, call.
  cbn [xml_tree parsed_instance]. now rewrite <- app_assoc.
Qed.

(** X7: whenever [__init__] returns an instance, the text was parsed and
    either [is_signed] was false and the instance holds the parsed tree, or
    [is_signed] was true, the verifier succeeded, and the instance holds its
    [signed_xml].  No instance is returned for a signed document without a
    successful verification. *)
Theorem init_returns_only_justified_trees s c h self h' :
  __init__ s c h = (Returns self, h') ->
  exists t,
    fromstring s = Returns t /\
    ((is_signed (parsed_instance s c t) = Returns false /\ xml_tree self = t) \/
     (is_signed (parsed_instance s c t) = Returns true /\
      exists r, XMLVerifier_verify t c = Returns r /\ xml_tree self = signed_xml r)).
Proof.
  intros Hrun.
  destruct (init_returns_inv _ _ _ _ _ Hrun) as (t & Hp & [(Hs & -> & _)|(Hs & r & Hv & -> & _)]);
    exists t; (split; [exact Hp|]).
  - left. auto.
  - right. split; [exact Hs|]. exists r. auto.
Qed.

End ParserRuns.

(** Concrete runs for the properties above. *)

Lemma init_foreign_parser_exception_witness :
  @xml_parser.parse_request double.base_env xml_parser.module_name double.doc_entity [] =
    (Raises (Foreign "defusedxml.EntitiesForbidden" "EntitiesForbidden(name='x')"),
     [] ++ [@xml_parser.CallFromstring double.base_env double.doc_entity]) /\
  @xml_parser.__init__ double.base_env double.doc_entity None [] =
    (Raises (Foreign "defusedxml.EntitiesForbidden" "EntitiesForbidden(name='x')"),
     [] ++ [@xml_parser.CallFromstring double.base_env double.doc_entity]).
Proof.
  apply (@init_foreign_parser_exception_propagates double.base_env
           double.doc_entity None
           (Foreign "defusedxml.EntitiesForbidden" "EntitiesForbidden(name='x')")
           xml_parser.module_name []); reflexivity.
Defined.

Lemma init_keeps_text_witness :
  let self := @xml_parser.parsed_instance double.env double.doc_wrapped (Some "k7")
                double.assertion_alice in
  xml_parser.xml_string self = double.doc_wrapped /\
  @xml_parser.certificate double.env self = Some "k7" /\
  xml_parser._logger self = xml_parser.module_name.
Proof.
  apply (@init_keeps_text_and_certificate double.env double.doc_wrapped (Some "k7") []
           (@xml_parser.parsed_instance double.env double.doc_wrapped (Some "k7")
              double.assertion_alice)
           [@xml_parser.CallFromstring double.env double.doc_wrapped;
            @xml_parser.CallVerify double.env double.tree_wrapped (Some "k7")]).
  reflexivity.
Defined.

Lemma init_is_signed_exception_witness :
  @xml_parser.__init__ double.base_env double.doc_unsigned None [] =
    (Raises NotImplementedError,
     [] ++ [@xml_parser.CallFromstring double.base_env double.doc_unsigned]).
Proof.
  apply (@init_is_signed_exception_propagates double.base_env double.doc_unsigned None
           double.tree_unsigned NotImplementedError []); reflexivity.
Defined.

Lemma query_after_verification_witness :
  exists (self : xml_parser.XmlParser string) h1,
    @xml_parser.__init__ double.env double.doc_wrapped (Some "k7") [] = (Returns self, h1) /\
    @xml_parser._xpath_xml_tree double.env self "Assertion" h1 =
      (Returns [double.assertion_alice],
       [] ++ [@xml_parser.CallFromstring double.env double.doc_wrapped;
              @xml_parser.CallVerify double.env double.tree_wrapped (Some "k7");
              @xml_parser.CallXPath double.env double.assertion_alice "Assertion"
                (@xml_parser.NAMESPACE_MAP double.env)]).
Proof.
  apply (@query_after_verification_sees_signed_subtree double.env double.doc_wrapped
           (Some "k7") double.tree_wrapped
           {| xml_parser.signed_data := "alice";
              xml_parser.signed_xml := double.assertion_alice;
              xml_parser.signature_xml := double.signature_alice |}
           "Assertion" []); reflexivity.
Defined.

Lemma init_returns_only_justified_witness :
  exists t,
    @xml_parser.fromstring double.env double.doc_wrapped = Returns t /\
    ((@xml_parser.is_signed double.env
        (@xml_parser.parsed_instance double.env double.doc_wrapped (Some "k7") t)
      = Returns false /\
      xml_parser.xml_tree
        (@xml_parser.parsed_instance double.env double.doc_wrapped (Some "k7")
           double.assertion_alice) = t) \/
     (@xml_parser.is_signed double.env
        (@xml_parser.parsed_instance double.env double.doc_wrapped (Some "k7") t)
      = Returns true /\
      exists r, @xml_parser.XMLVerifier_verify double.env t (Some "k7") = Returns r /\
                xml_parser.xml_tree
                  (@xml_parser.parsed_instance double.env double.doc_wrapped (Some "k7")
                     double.assertion_alice) = xml_parser.signed_xml r)).
Proof.
  apply (@init_returns_only_justified_trees double.env double.doc_wrapped (Some "k7") []
           (@xml_parser.parsed_instance double.env double.doc_wrapped (Some "k7")
              double.assertion_alice)
           [@xml_parser.CallFromstring double.env double.doc_wrapped;
            @xml_parser.CallVerify double.env double.tree_wrapped (Some "k7")]).
  reflexivity.
Defined.

(** * Further properties of utils.py: [cached_property] *)

Section CachedPropertyRuns.
Import utils.
Context {Value : Type}.
Implicit Types (self : cached_property Value) (o : Object Value) (v : Value).

(** X8: an entry found in the object's [__dict__] under the property's name,
    however it got there, is what every read returns; the function is not
    called and the object does not change, whatever reads, assignments and
    deletions are made. *)
Theorem seeded_entry_shadows_function self o v :
  __dict__ o !! __name__ self = Some v ->
  forall prog,
    snd (accesses self prog o) = o /\
    func_calls (snd (accesses self prog o)) = func_calls o /\
    Forall2 (cached_outcome v) prog (fst (accesses self prog o)).
Proof.
  intros Hc prog. destruct (accesses_cached self prog o v Hc) as [Hs Hf].
  rewrite Hs. auto.
Qed.

(** X9: a call that raises caches nothing.  With a function that raises and
    leaves the dictionary alone, each of [n] reads in a row raises that
    exception and calls the function again: [n] calls after [n] reads. *)
Theorem raising_function_is_not_cached self cn d e :
  d !! __name__ self = None ->
  fn_call (func self) d = (Raises e, d) ->
  forall n calls,
    accesses self (repeat Load n)
      {| class_name := cn; __dict__ := d; func_calls := calls |} =
    (repeat (Raises e) n,
     {| class_name := cn; __dict__ := d; func_calls := n + calls |}).
Proof.
  intros Hm Hf. induction n as [|n IH]; intros calls; [reflexivity|].
  cbn [repeat accesses access]. unfold __get__. cbn [__dict__ class_name func_calls].
  rewrite Hm, Hf, (IH (S calls)).
  replace (n + S calls) with (S n + calls) by lia. reflexivity.
Qed.

(** X10: the cache slot is keyed by the name alone.  After a property has
    computed and stored its value, a second property with the same name
    reads that value and never calls its own function. *)
Theorem same_name_shares_cache (p1 p2 : cached_property Value) o v d :
  __name__ p1 = __name__ p2 ->
  __dict__ o !! __name__ p1 = None ->
  fn_call (func p1) (__dict__ o) = (Returns v, d) ->
  exists o1,
    access p1 Load o = (Returns (Some v), o1) /\
    forall prog,
      snd (accesses p2 prog o1) = o1 /\
      Forall2 (cached_outcome v) prog (fst (accesses p2 prog o1)).
Proof.
  intros Hn Hm Hf.
  exists {| class_name := class_name o;
            __dict__ := <[__name__ p1 := v]> d;
            func_calls := S (func_calls o) |}.
  split; [cbn [access]; now rewrite (get_computes _ _ _ _ Hm Hf)|].
  intros prog. apply accesses_cached. cbn. rewrite <- Hn. apply lookup_insert_eq.
Qed.

(** X11: a statement on one property leaves the dictionary entry of every
    other name as the property's function left it; in particular a function
    that does not write to another name never disturbs what is cached
    there. *)
Theorem other_names_untouched self o k r d a :
  __name__ self <> k ->
  fn_call (func self) (__dict__ o) = (r, d) ->
  d !! k = __dict__ o !! k ->
  __dict__ (snd (access self a o)) !! k = __dict__ o !! k.
Proof.
  intros Hk Hf Hd. destruct a as [|w|].
  - cbn [access]. unfold __get__.
    destruct (__dict__ o !! __name__ self) as [v|]; [reflexivity|].
    rewrite Hf. destruct r as [v|e]; cbn; [|exact Hd].
    now rewrite lookup_insert_ne.
  - now rewrite access_assign_or_delete.
  - now rewrite access_assign_or_delete.
Qed.

(** X12: assignments and deletions alone never change the object, cached or
    not: each of them raises [AttributeError], so a value can neither be
    planted nor removed through the attribute. *)
Theorem writes_never_change_object self prog : forall o,
  forallb is_write prog = true ->
  snd (accesses self prog o) = o /\
  Forall raised_AttributeError (fst (accesses self prog o)).
Proof.
  induction prog as [|a prog IH]; intros o Hw; cbn [accesses].
  - split; [reflexivity | constructor].
  - cbn [forallb] in Hw. apply andb_true_iff in Hw as [Ha Hw].
    destruct (IH o Hw) as [Hs Hr].
    assert (Hone : exists msg, access self a o = (Raises (AttributeError msg), o)).
    { destruct a as [|w|]; [discriminate| |]; cbn [access].
      - destruct (set_raises_AttributeError self o w) as [msg ->]. eauto.
      - destruct (delete_raises_AttributeError self o) as [msg ->]. eauto. }
    destruct Hone as [msg ->].
    destruct (accesses self prog o) as [rs o'']. cbn in *.
    split; [assumption|]. constructor; [now exists msg | assumption].
Qed.

End CachedPropertyRuns.

Lemma seeded_entry_witness :
  let self := utils.__init__ double.answer None None in
  let o := {| utils.class_name := "Foo";
              utils.__dict__ := {[ "answer" := 5 ]};
              utils.func_calls := 0 |} in
  let prog := [utils.Load; utils.Store 1; utils.Del; utils.Load] in
  snd (utils.accesses self prog o) = o /\
  utils.func_calls (snd (utils.accesses self prog o)) = 0 /\
  Forall2 (utils.cached_outcome 5) prog (fst (utils.accesses self prog o)).
Proof.
  refine (seeded_entry_shadows_function (utils.__init__ double.answer None None)
            {| utils.class_name := "Foo";
               utils.__dict__ := {[ "answer" := 5 ]};
               utils.func_calls := 0 |} 5 _
            [utils.Load; utils.Store 1; utils.Del; utils.Load]).
  reflexivity.
Defined.

Lemma raising_function_witness :
  utils.accesses (utils.__init__ double.broken None None) (repeat utils.Load 3)
    {| utils.class_name := "Foo"; utils.__dict__ := ∅; utils.func_calls := 0 |} =
  (repeat (Raises (ValueError "boom")) 3,
   {| utils.class_name := "Foo"; utils.__dict__ := ∅; utils.func_calls := 3 + 0 |}).
Proof.
  refine (raising_function_is_not_cached (utils.__init__ double.broken None None)
            "Foo" ∅ (ValueError "boom") _ _ 3 0); reflexivity.
Defined.

Lemma same_name_witness :
  exists o1,
    utils.access (utils.__init__ double.answer None None) utils.Load double.fresh_object
      = (Returns (Some 42), o1) /\
    forall prog,
      snd (utils.accesses (utils.__init__ double.other_answer None None) prog o1) = o1 /\
      Forall2 (utils.cached_outcome 42) prog
        (fst (utils.accesses (utils.__init__ double.other_answer None None) prog o1)).
Proof.
  apply (same_name_shares_cache (utils.__init__ double.answer None None)
           (utils.__init__ double.other_answer None None)
           double.fresh_object 42 ∅); reflexivity.
Defined.

Lemma other_names_witness :
  utils.__dict__
    (snd (utils.access (utils.__init__ double.answer None None) utils.Load
            double.fresh_object)) !! "other" =
  utils.__dict__ double.fresh_object !! "other".
Proof.
  apply (other_names_untouched (utils.__init__ double.answer None None)
           double.fresh_object "other" (Returns 42) ∅ utils.Load);
    [discriminate | reflexivity | reflexivity].
Defined.

Lemma writes_never_change_witness :
  snd (utils.accesses (utils.__init__ double.answer None None)
         [utils.Store 1; utils.Del] double.fresh_object) = double.fresh_object /\
  Forall utils.raised_AttributeError
    (fst (utils.accesses (utils.__init__ double.answer None None)
            [utils.Store 1; utils.Del] double.fresh_object)).
Proof.
  apply (writes_never_change_object (utils.__init__ double.answer None None)
           [utils.Store 1; utils.Del] double.fresh_object).
  reflexivity.
Defined.

(** * Further properties of utils.py: [import_string] and [get_random_id] *)

Section ImportFacts.
Import utils.

Lemma rsplit1_none sep s :
  rsplit1 sep s = None <-> occurs sep s = false.
Proof.
  induction s as [|c rest IH]; cbn [rsplit1 occurs]; [tauto|].
  destruct (rsplit1 sep rest) as [[a b]|].
  - split; [discriminate|]. intros H. apply orb_false_iff in H as [_ H].
    apply IH in H. discriminate.
  - destruct (Ascii.eqb c sep); cbn; [split; discriminate|].
    split; intros _; [now apply IH | reflexivity].
Qed.

Lemma rsplit1_some sep s : forall a b,
  rsplit1 sep s = Some (a, b) ->
  s = (a ++ String sep b)%string /\ occurs sep b = false.
Proof.
  induction s as [|c rest IH]; intros a b; cbn [rsplit1]; [discriminate|].
  destruct (rsplit1 sep rest) as [[a' b']|] eqn:Hr.
  - intros H. inversion H; subst. destruct (IH a' b eq_refl) as [-> Hb].
    split; [reflexivity | exact Hb].
  - destruct (Ascii.eqb_spec c sep) as [->|]; [|discriminate].
    intros H. inversion H; subst. split; [reflexivity|]. now apply rsplit1_none.
Qed.

Lemma rsplit1_app sep a b :
  occurs sep b = false ->
  rsplit1 sep (a ++ String sep b) = Some (a, b).
Proof.
  intros Hb. induction a as [|c a IH].
  - change (rsplit1 sep (String sep b) = Some (EmptyString, b)). cbn [rsplit1].
    apply rsplit1_none in Hb. rewrite Hb. now rewrite Ascii.eqb_refl.
  - change (rsplit1 sep (String c (a ++ String sep b)) = Some (String c a, b)).
    cbn [rsplit1]. now rewrite IH.
Qed.

Context `{I : Importer}.

(** X13: a path with no dot in it raises [ValueError] from the tuple
    assignment; no module is imported. *)
Theorem import_string_needs_a_dot path :
  occurs "." path = false ->
  import_string path =
    Raises (ValueError "not enough values to unpack (expected 2, got 1)").
Proof.
  intros H. unfold import_string. apply rsplit1_none in H. now rewrite H.
Qed.

(** X14: the path is cut at its last dot.  For an attribute name without a
    dot, [import_string (name ++ "." ++ attr)] imports the module [name],
    dots included, and returns its attribute [attr]; an exception of the
    import or of the lookup is passed on. *)
Theorem import_string_splits_at_last_dot name attr :
  occurs "." attr = false ->
  import_string (name ++ String "." attr) =
    match import_module name with
    | Returns module => getattr module attr
    | Raises e => Raises e
    end.
Proof.
  intros H. unfold import_string. now rewrite (rsplit1_app _ _ _ H).
Qed.

(** X15: whenever [import_string] returns an object, the path has the form
    [name ++ "." ++ attr] with no dot in [attr], the module [name] was
    imported and the object is its attribute [attr]. *)
Theorem import_string_returns_inv path obj :
  import_string path = Returns obj ->
  exists name attr module,
    path = (name ++ String "." attr)%string /\
    occurs "." attr = false /\
    import_module name = Returns module /\
    getattr module attr = Returns obj.
Proof.
  unfold import_string. intros H.
  destruct (rsplit1 "." path) as [[name attr]|] eqn:Hr; [|discriminate].
  destruct (rsplit1_some _ _ _ _ Hr) as [-> Ha].
  destruct (import_module name) as [module|e] eqn:Hm; [|discriminate].
  exists name, attr, module. auto.
Qed.

(** Whatever UUID is drawn, also one whose hex form starts with a
    digit, the identifier starts with an underscore and so not with a digit;
    it is one character longer than the hex form, and different UUIDs give
    different identifiers. *)
Lemma get_random_id_shape h1 h2 :
  first_char (get_random_id h1) = Some "_"%char /\
  (forall c, first_char (get_random_id h1) = Some c -> is_digit c = false) /\
  String.length (get_random_id h1) = S (String.length h1) /\
  (get_random_id h1 = get_random_id h2 -> h1 = h2).
Proof.
  unfold get_random_id. cbn. repeat split.
  - intros c H. inversion H. reflexivity.
  - intros H. now inversion H.
Qed.

End ImportFacts.

Lemma import_string_needs_a_dot_witness :
  @utils.import_string double.importer "os" =
    Raises (ValueError "not enough values to unpack (expected 2, got 1)").
Proof.
  apply (@import_string_needs_a_dot double.importer "os"). reflexivity.
Defined.

Lemma import_string_splits_witness :
  @utils.import_string double.importer "foo.bar.MyClass" = Returns 7.
Proof.
  apply (@import_string_splits_at_last_dot double.importer "foo.bar" "MyClass").
  reflexivity.
Defined.

Lemma import_string_returns_witness :
  exists name attr module,
    "foo.bar.MyClass" = (name ++ String "." attr)%string /\
    utils.occurs "." attr = false /\
    @utils.import_module double.importer name = Returns module /\
    @utils.getattr double.importer module attr = Returns 7.
Proof.
  apply (@import_string_returns_inv double.importer "foo.bar.MyClass" 7).
  reflexivity.
Defined.

(** * Further properties of utils.py: certificates and keys from files *)

Section FileFacts.
Import utils.

Lemma prepend_raises c r e :
  prepend c r = Raises e -> r = Raises e.
Proof. destruct r; cbn; intros H; inversion H; reflexivity. Qed.

(** The only exception [decode] raises is [UnicodeDecodeError]. *)
Lemma decode_raises_bounded n : forall b e,
  length b <= n -> decode b = Raises e -> e = UnicodeDecodeError.
Proof.
  induction n as [|n IH]; intros b e Hlen Hd.
  - destruct b; [discriminate | cbn in Hlen; lia].
  - destruct b as [|b0 r0]; [discriminate|].
    cbn [decode] in Hd. cbn [length] in Hlen.
    destruct (b0 <? 0x80)%N.
    { apply prepend_raises in Hd. apply (IH r0); [lia | assumption]. }
    destruct ((0xC2 <=? b0) && (b0 <? 0xE0))%N.
    { destruct r0 as [|b1 r1]; [now inversion Hd|].
      destruct (is_continuation b1); [|now inversion Hd].
      apply prepend_raises in Hd.
      apply (IH r1); [cbn [length] in Hlen; lia | assumption]. }
    destruct ((0xE0 <=? b0) && (b0 <? 0xF0))%N.
    { destruct r0 as [|b1 [|b2 r2]]; try now inversion Hd.
      cbv zeta in Hd.
      destruct (_ && _ && _ && _); [|now inversion Hd].
      apply prepend_raises in Hd.
      apply (IH r2); [cbn [length] in Hlen; lia | assumption]. }
    destruct ((0xF0 <=? b0) && (b0 <? 0xF5))%N; [|now inversion Hd].
    destruct r0 as [|b1 [|b2 [|b3 r3]]]; try now inversion Hd.
    cbv zeta in Hd.
    destruct (_ && _ && _ && _ && _); [|now inversion Hd].
    apply prepend_raises in Hd.
    apply (IH r3); [cbn [length] in Hlen; lia | assumption].
Qed.

Lemma decode_raises b e :
  decode b = Raises e -> e = UnicodeDecodeError.
Proof. apply (decode_raises_bounded (length b)). lia. Qed.

Context `{X : X509} `{F : FileSystem} `{K : PrivateKeys}.

(** X16: [certificate_from_file] hands the loader exactly the bytes of the
    file whenever they are valid UTF-8 (decoding and encoding again changes
    nothing); a file that is not valid UTF-8 raises [UnicodeDecodeError]
    before the loader is reached; an exception of [open] is passed on.
    [format] plays no part. *)
Theorem certificate_from_file_spec filename format :
  certificate_from_file filename format =
    match read_binary filename with
    | Returns content =>
        match decode content with
        | Returns _ => load_pem_x509_certificate content
        | Raises _ => Raises UnicodeDecodeError
        end
    | Raises e => Raises e
    end.
Proof.
  unfold certificate_from_file.
  destruct (read_binary filename) as [content|e]; [|reflexivity].
  destruct (decode content) as [text|e] eqn:Hd.
  - unfold certificate_from_string. now rewrite (encode_decode _ _ Hd).
  - now rewrite (decode_raises _ _ Hd).
Qed.

(** X17: a file that holds the PEM encoding of a certificate is read back as
    that certificate, given that the encoding is ASCII and the library loads
    its own encoding back. *)
Theorem certificate_file_round_trip filename format (c : Certificate) :
  read_binary filename = Returns (public_bytes_PEM c) ->
  is_ascii (public_bytes_PEM c) = true ->
  load_pem_x509_certificate (public_bytes_PEM c) = Returns c ->
  certificate_from_file filename format = Returns c.
Proof.
  intros Hf Ha Hl. unfold certificate_from_file. rewrite Hf, (decode_ascii _ Ha).
  unfold certificate_from_string.
  now rewrite (encode_decode _ _ (decode_ascii _ Ha)).
Qed.

(** X18: whatever string [certificate_to_string] returns,
    [certificate_from_string] on it gives the loader exactly the PEM bytes
    the library produced: the composition is the library's load of its own
    output, with nothing lost in the string. *)
Theorem certificate_string_is_transparent (c : Certificate) s :
  certificate_to_string c = Returns s ->
  certificate_from_string s = load_pem_x509_certificate (public_bytes_PEM c).
Proof.
  unfold certificate_to_string, certificate_from_string. intros Hs.
  now rewrite (encode_decode _ _ Hs).
Qed.

(** X19: [private_key_from_string] returns a key exactly when the string
    encodes to UTF-8, the library loads a key from those bytes, and the key
    is an RSA, DSA or DH key; the key returned is the loaded one. *)
Theorem private_key_from_string_returns_iff private_key format key :
  private_key_from_string private_key format = Returns key <->
  exists data,
    encode private_key = Returns data /\
    load_pem_private_key data = Returns key /\
    supported_key key = true.
Proof.
  unfold private_key_from_string, supported_key. split.
  - destruct (encode private_key) as [data|e]; [|discriminate].
    destruct (load_pem_private_key data) as [k|e] eqn:Hl; [|discriminate].
    intros H. exists data.
    destruct (is_RSAPrivateKey k) eqn:H1;
      [inversion H; subst; rewrite H1; auto|].
    destruct (is_DSAPrivateKey k) eqn:H2;
      [inversion H; subst; rewrite H1, H2; auto|].
    destruct (is_DHPrivateKey k) eqn:H3;
      [inversion H; subst; rewrite H1, H2, H3; auto | discriminate].
  - intros (data & -> & -> & Hk).
    destruct (is_RSAPrivateKey key); [reflexivity|].
    destruct (is_DSAPrivateKey key); [reflexivity|].
    destruct (is_DHPrivateKey key); [reflexivity | discriminate].
Qed.

(** X20: a key of any other kind (an elliptic-curve key, say) is refused
    with [ValueError], although the library loaded it. *)
Theorem unsupported_key_is_refused private_key format data key :
  encode private_key = Returns data ->
  load_pem_private_key data = Returns key ->
  supported_key key = false ->
  private_key_from_string private_key format =
    Raises (ValueError "Unsupported private key type").
Proof.
  unfold private_key_from_string, supported_key. intros -> -> Hk.
  apply orb_false_iff in Hk as [Hk H3]. apply orb_false_iff in Hk as [H1 H2].
  now rewrite H1, H2, H3.
Qed.

(** X21: [private_key_from_file] applies the same check to what the library
    loads from the bytes of the file, whenever they are valid UTF-8; a file
    that is not valid UTF-8 raises [UnicodeDecodeError]; an exception of
    [open] is passed on. *)
Theorem private_key_from_file_spec filename format :
  private_key_from_file filename format =
    match read_binary filename with
    | Returns content =>
        match decode content with
        | Returns _ => checked_key (load_pem_private_key content)
        | Raises _ => Raises UnicodeDecodeError
        end
    | Raises e => Raises e
    end.
Proof.
  unfold private_key_from_file.
  destruct (read_binary filename) as [content|e]; [|reflexivity].
  destruct (decode content) as [text|e] eqn:Hd.
  - unfold private_key_from_string, checked_key, supported_key.
    rewrite (encode_decode _ _ Hd).
    destruct (load_pem_private_key content) as [k|e]; [|reflexivity].
    destruct (is_RSAPrivateKey k); [reflexivity|].
    destruct (is_DSAPrivateKey k); [reflexivity|].
    destruct (is_DHPrivateKey k); reflexivity.
  - now rewrite (decode_raises _ _ Hd).
Qed.

End FileFacts.

Lemma certificate_file_round_trip_witness :
  @utils.certificate_from_file double.x509 double.files "cert.pem" utils.DER = Returns 3%N.
Proof.
  apply (@certificate_file_round_trip double.x509 double.files "cert.pem" utils.DER 3%N);
    reflexivity.
Defined.

Lemma certificate_string_is_transparent_witness :
  @utils.certificate_from_string double.x509 (double.double_public_bytes 3) =
  @utils.load_pem_x509_certificate double.x509 (@utils.public_bytes_PEM double.x509 3%N).
Proof.
  apply (@certificate_string_is_transparent double.x509 3%N
           (double.double_public_bytes 3)). reflexivity.
Defined.

Lemma unsupported_key_witness :
  @utils.private_key_from_string double.keys [45; 45; 69; 45; 45]%N utils.PEM =
    Raises (ValueError "Unsupported private key type").
Proof.
  apply (@unsupported_key_is_refused double.keys [45; 45; 69; 45; 45]%N utils.PEM
           [45; 45; 69; 45; 45]%N double.EC); reflexivity.
Defined.

(** Files on the test double's disk. *)
Example files_on_disk :
  @utils.certificate_from_file double.x509 double.files "missing.pem" utils.PEM
    = Raises (Foreign "FileNotFoundError" "missing.pem") /\
  @utils.certificate_from_file double.x509 double.files "latin1.pem" utils.PEM
    = Raises UnicodeDecodeError /\
  @utils.private_key_from_file double.files double.keys "key.pem" utils.PEM
    = Returns double.RSA /\
  @utils.private_key_from_file double.files double.keys "ec.pem" utils.PEM
    = Raises (ValueError "Unsupported private key type").
Proof. repeat split. Qed.
